(** * metal-sheets: the pricing formula and the synthetic series generator

    A shallow embedding of the two functions of [streamlit_app_2.py] that carry
    domain logic, [calculate_price] and [generate_fake_data], and the
    properties the specification states about them.

    Modelling conventions.
    - Python [float] values are idealised as real numbers ([R]); every
      arithmetic operator is the exact one.  The only partial operator of the
      source is the true division [/], which raises [ZeroDivisionError] on a
      zero divisor; it is modelled as such.  A second, executable rendering of
      [calculate_price] on IEEE binary64 ([calculate_price_binary64]) replays
      the concrete scenarios bit for bit.
    - Exceptions are values of [PyError]; a computation that may raise
      returns a [Result].
    - The global NumPy random state is an explicit state threaded through
      the generator, behind the interface [RandomState]; a draw is any value
      in the range of its distribution.
    - A [datetime] is an integer count of microseconds; calendar arithmetic
      is unbounded (no range limit of [datetime] or of pandas timestamps).
    - The numeric steps of [main] (module [Dashboard]) take the widget values
      as arguments; their operands are NumPy floats, whose division by zero
      gives an infinity or nan ([npfloat]) instead of raising. *)

From Stdlib Require Import Reals Lra Lia ZArith List Bool.
From Stdlib Require Import Floats.PrimFloat.
Import ListNotations.

Open Scope R_scope.

#[local] Set Warnings "-inexact-float".

(** ** Exceptions and results *)

Inductive PyError : Type :=
| ZeroDivisionError
| ValueError.

Inductive Result (A : Type) : Type :=
| Return (a : A)
| Raise (e : PyError).

Arguments Return {A} a.
Arguments Raise {A} e.

Definition raises {A : Type} (r : Result A) : Prop :=
  exists e, r = Raise e.

(** ** The pricing calculator *)

Module Pricing.

(** Python's true division on scalars. *)
Definition truediv (x y : R) : Result R :=
  if Req_dec_T y 0 then Raise ZeroDivisionError else Return (x / y).

(** [def calculate_price(base_cost, margin, volume_discount=0):
       return base_cost / (1 - margin) * (1 - volume_discount)] *)
Definition calculate_price (base_cost margin volume_discount : R) : Result R :=
  match truediv base_cost (1 - margin) with
  | Return q => Return (q * (1 - volume_discount))
  | Raise e => Raise e
  end.

(** The call with [volume_discount] left at its default. *)
Definition calculate_price_default (base_cost margin : R) : Result R :=
  calculate_price base_cost margin 0.

(** The same function on IEEE binary64, the representation of a Python
    [float]: each operator rounds to nearest-even, and a divisor that
    compares equal to zero raises. *)
Definition calculate_price_binary64 (base_cost margin volume_discount : float)
  : Result float :=
  let d := (1 - margin)%float in
  if (d =? 0)%float then Raise ZeroDivisionError
  else Return (base_cost / d * (1 - volume_discount))%float.

End Pricing.


(** ** The synthetic series generator *)

Module Generator.

(** *** Dates

    A naive [datetime] is a count of microseconds since the epoch, a
    [timedelta] a signed count of microseconds. *)

Definition datetime : Type := Z.
Definition timedelta : Type := Z.

Definition MICROSECONDS_PER_DAY : Z := 86400000000.

(** [timedelta(days=d)] *)
Definition timedelta_days (d : Z) : timedelta := (d * MICROSECONDS_PER_DAY)%Z.

(** The calendar day a datetime falls on (days since the epoch). *)
Definition calendar_date (t : datetime) : Z := (t / MICROSECONDS_PER_DAY)%Z.

(** [pd.date_range(start=start, end=stop, freq='D')]: [start], [start + 1 day],
    ... up to and including the last one that does not pass [stop]; empty
    when [stop] precedes [start]. *)
Definition date_range (start stop : datetime) : list datetime :=
  if (stop <? start)%Z then []
  else map (fun k => (start + timedelta_days (Z.of_nat k))%Z)
           (seq 0 (S (Z.to_nat ((stop - start) / MICROSECONDS_PER_DAY)))).

(** *** The random state

    The three primitive draws of NumPy's legacy generator, each consuming the
    state: a double in [0,1), a standard normal deviate, and an integer in
    [0, max]. *)
Class RandomState : Type := {
  rng : Type;
  random_sample : rng -> R * rng;
  standard_normal : rng -> R * rng;
  random_interval : Z -> rng -> Z * rng;
  random_sample_range :
    forall s, 0 <= fst (random_sample s) < 1;
  random_interval_range :
    forall max s, (0 <= max)%Z -> (0 <= fst (random_interval max s) <= max)%Z
}.

Section WithRandomState.
Context {RS : RandomState}.

(** Computations that read and advance the random state and may raise. *)
Definition M (A : Type) : Type := rng -> Result (A * rng).

Definition ret {A : Type} (a : A) : M A := fun s => Return (a, s).

Definition bind {A B : Type} (m : M A) (k : A -> M B) : M B :=
  fun s => match m s with
           | Return (a, s') => k a s'
           | Raise e => Raise e
           end.

Definition lift {A : Type} (r : Result A) : M A :=
  fun s => match r with
           | Return a => Return (a, s)
           | Raise e => Raise e
           end.

Notation "x <- m ;; k" := (bind m (fun x => k))
  (at level 61, m at next level, right associativity).

(** [n] successive draws, first draw first. *)
Fixpoint sample_n {A : Type} (draw : rng -> A * rng) (n : nat) (s : rng)
  : list A * rng :=
  match n with
  | O => ([], s)
  | S n' =>
      let (x, s1) := draw s in
      let (xs, s2) := sample_n draw n' s1 in
      (x :: xs, s2)
  end.

(** An array of [size] draws; a negative [size] is rejected
    ("negative dimensions are not allowed"). *)
Definition sized {A : Type} (draw : rng -> A * rng) (size : Z) : M (list A) :=
  fun s => if (size <? 0)%Z then Raise ValueError
           else Return (sample_n draw (Z.to_nat size) s).

Definition draw_uniform (low high : R) (s : rng) : R * rng :=
  let (x, s') := random_sample s in (low + (high - low) * x, s').

Definition draw_normal (loc scale : R) (s : rng) : R * rng :=
  let (z, s') := standard_normal s in (loc + scale * z, s').

Definition draw_randint (low high : Z) (s : rng) : Z * rng :=
  let (k, s') := random_interval (high - low - 1) s in ((low + k)%Z, s').

(** [np.random.uniform(low, high, size)] *)
Definition np_random_uniform (low high : R) (size : Z) : M (list R) :=
  sized (draw_uniform low high) size.

(** [np.random.normal(loc, scale, size)]; a negative [scale] is rejected. *)
Definition np_random_normal (loc scale : R) (size : Z) : M (list R) :=
  if Rlt_dec scale 0 then lift (Raise ValueError)
  else sized (draw_normal loc scale) size.

(** [np.random.randint(low, high, size)]; an empty range is rejected. *)
Definition np_random_randint (low high : Z) (size : Z) : M (list Z) :=
  if (high <=? low)%Z then lift (Raise ValueError)
  else sized (draw_randint low high) size.

(** *** Arrays *)

(** [np.arange(n)] *)
Definition np_arange (n : Z) : list Z := map Z.of_nat (seq 0 (Z.to_nat n)).

Fixpoint zip_with {A B C : Type} (f : A -> B -> C) (xs : list A) (ys : list B)
  : list C :=
  match xs, ys with
  | x :: xs', y :: ys' => f x y :: zip_with f xs' ys'
  | _, _ => []
  end.

(** Elementwise [+] of two one-dimensional arrays; operands of different
    lengths do not broadcast (every sum of the generator has operands of
    the same length, so the length-1 broadcast never applies). *)
Definition np_add (xs ys : list R) : Result (list R) :=
  if Nat.eqb (length xs) (length ys) then Return (zip_with Rplus xs ys)
  else Raise ValueError.

Fixpoint cumsum_from (acc : R) (xs : list R) : list R :=
  match xs with
  | [] => []
  | x :: xs' => (acc + x) :: cumsum_from (acc + x) xs'
  end.

(** [np.cumsum(xs)] *)
Definition np_cumsum (xs : list R) : list R := cumsum_from 0 xs.

(** The sum of a list of reals. *)
Definition Rsum (xs : list R) : R := fold_right Rplus 0 xs.

(** [np.sin(np.arange(days) * 2 * np.pi / 365) * amplitude] *)
Definition seasonal (days : Z) (amplitude : R) : list R :=
  map (fun i => sin (IZR i * 2 * PI / 365) * amplitude) (np_arange days).

(** *** The table *)

Record DataFrame : Type := {
  Date : list datetime;
  Steel_Cost : list R;
  Aluminum_Cost : list R;
  Fiberglass_Cost : list R;
  Labor_Rate : list R;
  Electricity_Cost : list R;
  Order_Volume : list R
}.

(** [pd.DataFrame(data)]: all columns must have the same length. *)
Definition pd_DataFrame (date : list datetime)
  (steel aluminum fiberglass labor electricity volume : list R)
  : Result DataFrame :=
  let n := length date in
  if forallb (fun c => Nat.eqb (length c) n)
       [steel; aluminum; fiberglass; labor; electricity; volume]
  then Return {| Date := date; Steel_Cost := steel; Aluminum_Cost := aluminum;
                 Fiberglass_Cost := fiberglass; Labor_Rate := labor;
                 Electricity_Cost := electricity; Order_Volume := volume |}
  else Raise ValueError.

(** [def generate_fake_data(days=365)]; [now] is the clock reading of
    [datetime.now()]. *)
Definition generate_fake_data (now : datetime) (days : Z) : M DataFrame :=
  let end_date := now in
  let start_date := (end_date - timedelta_days (days - 1))%Z in
  let date_range := date_range start_date end_date in
  u_steel <- np_random_uniform 0.5 1.0 days ;;
  steel <- lift (np_add u_steel (seasonal days 0.1)) ;;
  u_aluminum <- np_random_uniform 1.0 1.5 days ;;
  aluminum <- lift (np_add u_aluminum (seasonal days 0.15)) ;;
  u_fiberglass <- np_random_uniform 0.3 0.6 days ;;
  fiberglass <- lift (np_add u_fiberglass (seasonal days 0.05)) ;;
  b_labor <- np_random_uniform 20 30 days ;;
  e_labor <- np_random_normal 0 0.01 days ;;
  labor <- lift (np_add b_labor (np_cumsum e_labor)) ;;
  u_electricity <- np_random_uniform 0.1 0.2 days ;;
  electricity <- lift (np_add u_electricity (seasonal days 0.02)) ;;
  n_order <- np_random_randint 50 500 days ;;
  volume <- lift (np_add (map IZR n_order) (seasonal days 100)) ;;
  lift (pd_DataFrame date_range steel aluminum fiberglass labor electricity volume).

Definition generate_fake_data_default (now : datetime) : M DataFrame :=
  generate_fake_data now 365.

(** *** Records of the series *)

Record MetricRecord : Type := {
  date : datetime;
  steel_cost : R;
  aluminum_cost : R;
  fiberglass_cost : R;
  labor_rate : R;
  electricity_cost : R;
  order_volume : R
}.

Definition nrows (df : DataFrame) : nat := length (Date df).

(** The record at row [i] ([df.iloc[i]]), [None] out of range. *)
Definition iloc (df : DataFrame) (i : nat) : option MetricRecord :=
  match nth_error (Date df) i, nth_error (Steel_Cost df) i,
        nth_error (Aluminum_Cost df) i, nth_error (Fiberglass_Cost df) i,
        nth_error (Labor_Rate df) i, nth_error (Electricity_Cost df) i,
        nth_error (Order_Volume df) i with
  | Some d, Some st, Some al, Some fg, Some lb, Some el, Some ov =>
      Some {| date := d; steel_cost := st; aluminum_cost := al;
              fiberglass_cost := fg; labor_rate := lb;
              electricity_cost := el; order_volume := ov |}
  | _, _, _, _, _, _, _ => None
  end.

(** *** One run, seen from outside

    The seven arrays a run of the generator draws, in drawing order. *)
Record Draws : Type := {
  u_steel : list R;
  u_aluminum : list R;
  u_fiberglass : list R;
  b_labor : list R;
  e_labor : list R;
  u_electricity : list R;
  n_order : list Z
}.

(** Each array has [n] entries and every entry lies in the range of the
    distribution it was drawn from (a normal draw is any real). *)
Definition in_support (n : nat) (d : Draws) : Prop :=
  (length (u_steel d) = n /\ Forall (fun u => 0.5 <= u < 1.0) (u_steel d))
  /\ (length (u_aluminum d) = n /\ Forall (fun u => 1.0 <= u < 1.5) (u_aluminum d))
  /\ (length (u_fiberglass d) = n /\ Forall (fun u => 0.3 <= u < 0.6) (u_fiberglass d))
  /\ (length (b_labor d) = n /\ Forall (fun u => 20 <= u < 30) (b_labor d))
  /\ length (e_labor d) = n
  /\ (length (u_electricity d) = n /\ Forall (fun u => 0.1 <= u < 0.2) (u_electricity d))
  /\ (length (n_order d) = n /\ Forall (fun k => (50 <= k < 500)%Z) (n_order d)).

(** The table the source builds out of the drawn arrays. *)
Definition assemble (now : datetime) (days : Z) (d : Draws) : DataFrame := {|
  Date := date_range (now - timedelta_days (days - 1))%Z now;
  Steel_Cost := zip_with Rplus (u_steel d) (seasonal days 0.1);
  Aluminum_Cost := zip_with Rplus (u_aluminum d) (seasonal days 0.15);
  Fiberglass_Cost := zip_with Rplus (u_fiberglass d) (seasonal days 0.05);
  Labor_Rate := zip_with Rplus (b_labor d) (np_cumsum (e_labor d));
  Electricity_Cost := zip_with Rplus (u_electricity d) (seasonal days 0.02);
  Order_Volume := zip_with Rplus (map IZR (n_order d)) (seasonal days 100)
|}.

(** The record of day index [i] in the specification's words: each seasonal
    metric is its draw plus [amplitude * sin(2 pi i / 365)], the labor rate
    its base plus the sum of the normal increments up through day [i], the
    order volume its integer draw plus [100 * sin(2 pi i / 365)]. *)
Definition spec_record (now : datetime) (days : Z) (d : Draws) (i : nat)
  : MetricRecord := {|
  date := (now - timedelta_days (days - 1 - Z.of_nat i))%Z;
  steel_cost := nth i (u_steel d) 0 + 0.1 * sin (2 * PI * INR i / 365);
  aluminum_cost := nth i (u_aluminum d) 0 + 0.15 * sin (2 * PI * INR i / 365);
  fiberglass_cost := nth i (u_fiberglass d) 0 + 0.05 * sin (2 * PI * INR i / 365);
  labor_rate := nth i (b_labor d) 0 + Rsum (firstn (S i) (e_labor d));
  electricity_cost := nth i (u_electricity d) 0 + 0.02 * sin (2 * PI * INR i / 365);
  order_volume := IZR (nth i (n_order d) 0%Z) + 100 * sin (2 * PI * INR i / 365)
|}.

(** The arrays drawn by a run of [n] days from state [s], threaded through
    the state in the order of the source, and the state left behind. *)
Definition run_draws (n : nat) (s : rng) : Draws * rng :=
  let (u1, s1) := sample_n (draw_uniform 0.5 1.0) n s in
  let (u2, s2) := sample_n (draw_uniform 1.0 1.5) n s1 in
  let (u3, s3) := sample_n (draw_uniform 0.3 0.6) n s2 in
  let (b, s4) := sample_n (draw_uniform 20 30) n s3 in
  let (e, s5) := sample_n (draw_normal 0 0.01) n s4 in
  let (u6, s6) := sample_n (draw_uniform 0.1 0.2) n s5 in
  let (k, s7) := sample_n (draw_randint 50 500) n s6 in
  ({| u_steel := u1; u_aluminum := u2; u_fiberglass := u3; b_labor := b;
      e_labor := e; u_electricity := u6; n_order := k |}, s7).

(** The table with no rows. *)
Definition empty_table : DataFrame := {|
  Date := []; Steel_Cost := []; Aluminum_Cost := []; Fiberglass_Cost := [];
  Labor_Rate := []; Electricity_Cost := []; Order_Volume := []
|}.

End WithRandomState.

(** A random state that never changes: every uniform draw is the low end
    of its range and every normal deviate is [z]. *)
#[refine] Definition constant_state (z : R) : RandomState := {|
  rng := unit;
  random_sample := fun s => (0, s);
  standard_normal := fun s => (z, s);
  random_interval := fun _ s => (0%Z, s)
|}.
Proof.
  - intros s. simpl. lra.
  - intros max s Hmax. simpl. lia.
Defined.

(** A clock reading, 2026-11-03 22:08:13.123456, for the concrete runs. *)
Definition clock : datetime := 1793743693123456%Z.

End Generator.

(** ** The dashboard's computations

    The numeric steps of [main], as functions of the widget values and of
    the generated table.  There every operand of [calculate_price] is a
    NumPy scalar or array ([df['Labor_Rate'].mean()], the elements of
    [np.linspace], the mesh grids), so the arithmetic is NumPy's. *)

Module Dashboard.
Import Pricing Generator.

(** *** NumPy arithmetic

    A NumPy float is a real number or one of the three special values.
    NumPy's true division signals no exception on a zero divisor: it
    returns an infinity of the dividend's sign, or nan for 0/0.  (The only
    divisor of the source is [1 - margin], whose zero is the positive
    one.) *)
Inductive npfloat : Type :=
| np_finite (r : R)
| np_inf
| np_neg_inf
| np_nan.

Definition np_true_divide (x y : R) : npfloat :=
  if Req_dec_T y 0 then
    if Rlt_dec 0 x then np_inf
    else if Rlt_dec x 0 then np_neg_inf
    else np_nan
  else np_finite (x / y).

(** The product of a NumPy float and a finite factor. *)
Definition np_multiply (v : npfloat) (k : R) : npfloat :=
  match v with
  | np_finite r => np_finite (r * k)
  | np_inf =>
      if Rlt_dec 0 k then np_inf else if Rlt_dec k 0 then np_neg_inf else np_nan
  | np_neg_inf =>
      if Rlt_dec 0 k then np_neg_inf else if Rlt_dec k 0 then np_inf else np_nan
  | np_nan => np_nan
  end.

(** [calculate_price] applied to NumPy operands:
    [base_cost / (1 - margin) * (1 - volume_discount)]. *)
Definition calculate_price_numpy (base_cost margin volume_discount : R) : npfloat :=
  np_multiply (np_true_divide base_cost (1 - margin)) (1 - volume_discount).

(** [np.linspace(start, stop, num)]: [num] evenly spaced samples, the last
    one set to [stop] itself. *)
Definition np_linspace (start stop : R) (num : nat) : list R :=
  let div := (num - 1)%nat in
  let delta := stop - start in
  let y := map (fun i => if Nat.eqb div 0 then INR i * delta + start
                         else INR i * (delta / INR div) + start)
               (seq 0 num) in
  if (1 <? num)%nat then removelast y ++ [stop] else y.

(** *** Price sensitivity (the margin sweep) *)

(** [margin_range = np.linspace(0.1, 0.5, 100)] *)
Definition margin_range : list R := np_linspace 0.1 0.5 100.

(** [prices = [calculate_price(base_cost, m) for m in margin_range]] *)
Definition prices (base_cost : R) : list npfloat :=
  map (fun m => calculate_price_numpy base_cost m 0) margin_range.

(** *** Market position *)

Inductive Notice : Type :=
| success   (* "Your price is competitive in the market!" *)
| warning   (* "Your price is higher than competitors. ..." *)
| info.     (* "Your price is within the competitive range." *)

(** [if price < min(competitor1, competitor2): st.success(...)
     elif price > max(competitor1, competitor2): st.warning(...)
     else: st.info(...)] *)
Definition market_position (price competitor1 competitor2 : R) : Notice :=
  if Rlt_dec price (Rmin competitor1 competitor2) then success
  else if Rgt_dec price (Rmax competitor1 competitor2) then warning
  else info.

(** *** Column reductions *)

(** [Series.mean()]: the arithmetic mean, nan for an empty column. *)
Definition Series_mean (xs : list R) : npfloat :=
  match xs with
  | [] => np_nan
  | _ :: _ => np_finite (Rsum xs / INR (length xs))
  end.

(** [Series.min()] and [Series.max()], nan for an empty column. *)
Definition Series_min (xs : list R) : npfloat :=
  match xs with
  | [] => np_nan
  | x :: xs' => np_finite (fold_left Rmin xs' x)
  end.

Definition Series_max (xs : list R) : npfloat :=
  match xs with
  | [] => np_nan
  | x :: xs' => np_finite (fold_left Rmax xs' x)
  end.

(** [df['Date'].max()], [None] (NaT) for an empty column. *)
Definition Date_max (ds : list datetime) : option datetime :=
  match ds with
  | [] => None
  | d :: ds' => Some (fold_left Z.max ds' d)
  end.

(** [Series.rolling(window).mean()]: entry [i] is the mean of the [window]
    values ending at [i], nan while fewer than [window] values are there. *)
Definition rolling_mean (window : nat) (xs : list R) : list npfloat :=
  map (fun i => if (S i <? window)%nat then np_nan
                else np_finite (Rsum (firstn window (skipn (S i - window) xs))
                                / INR window))
      (seq 0 (length xs)).

(** *** Market overview *)

(** The 30-day moving average of the order volume:
    [df['Order_Volume'].rolling(window=30).mean()]. *)
Definition moving_average (df : DataFrame) : list npfloat :=
  rolling_mean 30 (Order_Volume df).

(** *** Product pricing *)

(** The values of the sidebar sliders and of the number inputs. *)
Record Widgets : Type := {
  target_margin : R;
  volume_discount : R;
  material_cost : R;
  labor_hours : R;
  overhead_cost : R
}.

(** The bounds the widgets are declared with:
    [slider("Target Profit Margin", 0.1, 0.5, ...)],
    [slider("Volume Discount", 0.0, 0.2, ...)],
    [number_input(..., 0.5, 5.0, ...)], [number_input("Labor Hours", 0.5, 10.0, ...)],
    [number_input("Overhead Cost", 5.0, 50.0, ...)]. *)
Definition within_bounds (w : Widgets) : Prop :=
  0.1 <= target_margin w <= 0.5
  /\ 0.0 <= volume_discount w <= 0.2
  /\ 0.5 <= material_cost w <= 5.0
  /\ 0.5 <= labor_hours w <= 10.0
  /\ 5.0 <= overhead_cost w <= 50.0.

(** The widgets left at their initial values. *)
Definition initial_widgets : Widgets := {|
  target_margin := 0.3;
  volume_discount := 0.05;
  material_cost := 1.0;
  labor_hours := 1.0;
  overhead_cost := 10.0
|}.

(** [base_cost = material_cost + (labor_hours * df['Labor_Rate'].mean())
                 + overhead_cost]; a nan mean propagates. *)
Definition base_cost (df : DataFrame) (w : Widgets) : npfloat :=
  match Series_mean (Labor_Rate df) with
  | np_finite mu =>
      np_finite (material_cost w + labor_hours w * mu + overhead_cost w)
  | _ => np_nan
  end.

(** [price = calculate_price(base_cost, target_margin)] *)
Definition price (df : DataFrame) (w : Widgets) : npfloat :=
  match base_cost df w with
  | np_finite c => calculate_price_numpy c (target_margin w) 0
  | _ => np_nan
  end.

(** *** Demand forecasting *)

(** [pd.date_range(start=start, periods=periods, freq='D')] *)
Definition date_range_periods (start : datetime) (periods : nat) : list datetime :=
  map (fun k => (start + timedelta_days (Z.of_nat k))%Z) (seq 0 periods).

(** [future_dates = pd.date_range(start=df['Date'].max() + timedelta(days=1),
                                  periods=30, freq='D')];
    with an empty table the start is NaT, which [date_range] rejects. *)
Definition future_dates (df : DataFrame) : Result (list datetime) :=
  match Date_max (Date df) with
  | Some max_date =>
      Return (date_range_periods (max_date + timedelta_days 1)%Z 30)
  | None => Raise ValueError
  end.

(** *** Cost sensitivity (the price surface) *)

(** [X, Y = np.meshgrid(x, y)]: one row per entry of [y], one column per
    entry of [x]; [X] repeats [x] in every row, [Y] repeats [y] in every
    column. *)
Definition np_meshgrid (x y : list R) : list (list R) * list (list R) :=
  (map (fun _ => x) y, map (fun yi => map (fun _ => yi) x) y).

(** Elementwise sum of two grids of the same shape, and of a grid and a
    scalar. *)
Definition grid_add (X Y : list (list R)) : list (list R) :=
  zip_with (zip_with Rplus) X Y.

Definition grid_add_scalar (G : list (list R)) (c : R) : list (list R) :=
  map (map (fun g => g + c)) G.

(** [calculate_price] applied to a grid of base costs, elementwise. *)
Definition calculate_price_grid (G : list (list R)) (margin : R)
  : list (list npfloat) :=
  map (map (fun c => calculate_price_numpy c margin 0)) G.

(** [material_range = np.linspace(df['Steel_Cost'].min(), df['Steel_Cost'].max(), 100)]
    [labor_range = np.linspace(df['Labor_Rate'].min(), df['Labor_Rate'].max(), 100)]
    [X, Y = np.meshgrid(material_range, labor_range)]
    [Z = calculate_price(X + Y + overhead_cost, target_margin)],
    as a function of the four column extremes (numbers, for a table with
    rows). *)
Definition cost_surface (steel_min steel_max labor_min labor_max : R)
  (overhead_cost target_margin : R) : list (list npfloat) :=
  let material_range := np_linspace steel_min steel_max 100 in
  let labor_range := np_linspace labor_min labor_max 100 in
  let (X, Y) := np_meshgrid material_range labor_range in
  calculate_price_grid (grid_add_scalar (grid_add X Y) overhead_cost) target_margin.

(** The entry of a grid at row [i], column [j]. *)
Definition grid_cell {A : Type} (G : list (list A)) (i j : nat) : option A :=
  match nth_error G i with
  | Some row => nth_error row j
  | None => None
  end.

(** A table with a single row, for the concrete instances. *)
Definition one_row_table : DataFrame := {|
  Date := [clock]; Steel_Cost := [0.75]; Aluminum_Cost := [1.25];
  Fiberglass_Cost := [0.45]; Labor_Rate := [25]; Electricity_Cost := [0.15];
  Order_Volume := [275]
|}.

End Dashboard.

(** ** Properties of the pricing calculator *)

Section PricingFacts.
Import Pricing.

Lemma truediv_nonzero (x y : R) : y <> 0 -> truediv x y = Return (x / y).
Proof.
  intros Hy. unfold truediv. destruct (Req_dec_T y 0) as [E | _]; [contradiction | reflexivity].
Qed.

Lemma truediv_zero (x : R) : truediv x 0 = Raise ZeroDivisionError.
Proof.
  unfold truediv. destruct (Req_dec_T 0 0) as [_ | N]; [reflexivity | contradiction N; reflexivity].
Qed.

Lemma calculate_price_value (c m vd : R) :
  m <> 1 -> calculate_price c m vd = Return (c / (1 - m) * (1 - vd)).
Proof.
  intros Hm. unfold calculate_price.
  rewrite truediv_nonzero by lra. reflexivity.
Qed.

Lemma calculate_price_margin_one (c vd : R) :
  calculate_price c 1 vd = Raise ZeroDivisionError.
Proof.
  unfold calculate_price.
  replace (1 - 1) with 0 by lra. rewrite truediv_zero. reflexivity.
Qed.

Lemma calculate_price_raises_iff (c m vd : R) :
  raises (calculate_price c m vd) <-> m = 1.
Proof.
  split.
  - intros [e He]. destruct (Req_dec_T m 1) as [E | N]; [exact E | ].
    rewrite calculate_price_value in He by exact N. discriminate.
  - intros ->. exists ZeroDivisionError. apply calculate_price_margin_one.
Qed.

(** The spec's worked scenarios, replayed on binary64. *)
Example binary64_scenario_1 :
  calculate_price_binary64 10 0.3 0 = Return (10 / 0.7)%float.
Proof. reflexivity. Qed.

Example binary64_scenario_1_digits :
  calculate_price_binary64 10 0.3 0 = Return 14.285714285714286%float.
Proof. reflexivity. Qed.

Example binary64_margin_one :
  calculate_price_binary64 10 1 0 = Raise ZeroDivisionError.
Proof. reflexivity. Qed.

Example binary64_margin_two :
  calculate_price_binary64 10 2 0 = Return (-10)%float.
Proof. reflexivity. Qed.

Example binary64_full_discount :
  calculate_price_binary64 10 0.3 1 = Return 0%float.
Proof. reflexivity. Qed.

(** C1. With a margin different from 1 the calculator returns
    [base_cost / (1 - margin) * (1 - volume_discount)]; for a margin below 1
    and no discount, multiplying the price back by [1 - margin] gives the
    base cost; and [calculate_price(10.0, 0.3, 0.0)] is [10.0/0.7], about
    14.2857 (on the reals and on binary64 alike). *)
Theorem C1_calculate_price_formula :
  (forall c m vd : R,
      m <> 1 -> calculate_price c m vd = Return (c / (1 - m) * (1 - vd)))
  /\ (forall c m : R,
      m < 1 -> exists p, calculate_price c m 0 = Return p /\ p * (1 - m) = c)
  /\ calculate_price 10 0.3 0 = Return (10 / 0.7)
  /\ 14.2857 < 10 / 0.7 < 14.2858
  /\ calculate_price_binary64 10 0.3 0 = Return (10 / 0.7)%float.
Proof.
  split; [ | split; [ | split; [ | split ] ] ].
  - intros c m vd Hm. apply calculate_price_value; exact Hm.
  - intros c m Hm. exists (c / (1 - m) * (1 - 0)). split.
    + apply calculate_price_value; lra.
    + field; lra.
  - rewrite calculate_price_value by lra.
    replace (1 - 0.3) with 0.7 by lra. apply f_equal. lra.
  - lra.
  - reflexivity.
Qed.

(** C2 as stated fails: with margin 2 the calculator returns a number
    (the negative price -10) instead of signalling an error. *)
Lemma C2_counterexample :
  ~ (forall c m vd : R, m >= 1 -> raises (calculate_price c m vd)).
Proof.
  intros H. destruct (H 10 2 0 ltac:(lra)) as [e He].
  rewrite calculate_price_value in He by lra. discriminate.
Qed.

(** C2, amended. The calculator performs no validation: it raises exactly
    when the margin equals 1, the error being the division's
    [ZeroDivisionError]; above 1 it returns the formula's value, which has
    the sign opposite to [base_cost * (1 - volume_discount)]. *)
Theorem C2_error_only_at_margin_one (c m vd : R) :
  (raises (calculate_price c m vd) <-> m = 1)
  /\ (m = 1 -> calculate_price c m vd = Raise ZeroDivisionError)
  /\ (1 < m ->
      calculate_price c m vd = Return (c / (1 - m) * (1 - vd))
      /\ (0 < c -> vd < 1 -> c / (1 - m) * (1 - vd) < 0)).
Proof.
  split; [ apply calculate_price_raises_iff | split ].
  - intros ->. apply calculate_price_margin_one.
  - intros Hm. split.
    + apply calculate_price_value; lra.
    + intros Hc Hvd.
      assert (Hd : 0 < / (m - 1)) by (apply Rinv_0_lt_compat; lra).
      replace (c / (1 - m) * (1 - vd)) with (- (c * / (m - 1) * (1 - vd)))
        by (field; lra).
      assert (0 < c * / (m - 1) * (1 - vd)); [ | lra ].
      apply Rmult_lt_0_compat; [ apply Rmult_lt_0_compat | ]; lra.
Qed.

(** Order facts about the formula's value, used by C6 and C7. *)
Lemma quotient_nonneg (c m : R) : 0 <= c -> m < 1 -> 0 <= c / (1 - m).
Proof.
  intros Hc Hm. unfold Rdiv. apply Rmult_le_pos; [ exact Hc | ].
  left. apply Rinv_0_lt_compat. lra.
Qed.

Lemma quotient_pos (c m : R) : 0 < c -> m < 1 -> 0 < c / (1 - m).
Proof.
  intros Hc Hm. unfold Rdiv. apply Rmult_lt_0_compat; [ exact Hc | ].
  apply Rinv_0_lt_compat. lra.
Qed.

Lemma quotient_le_cost (c c' m : R) :
  m < 1 -> c <= c' -> c / (1 - m) <= c' / (1 - m).
Proof.
  intros Hm Hc. unfold Rdiv. apply Rmult_le_compat_r; [ | exact Hc ].
  left. apply Rinv_0_lt_compat. lra.
Qed.

Lemma quotient_lt_cost (c c' m : R) :
  m < 1 -> c < c' -> c / (1 - m) < c' / (1 - m).
Proof.
  intros Hm Hc. unfold Rdiv. apply Rmult_lt_compat_r; [ | exact Hc ].
  apply Rinv_0_lt_compat. lra.
Qed.

Lemma quotient_le_margin (c m m' : R) :
  0 <= c -> m <= m' -> m' < 1 -> c / (1 - m) <= c / (1 - m').
Proof.
  intros Hc Hm Hm'. unfold Rdiv. apply Rmult_le_compat_l; [ exact Hc | ].
  apply Rinv_le_contravar; lra.
Qed.

Lemma quotient_lt_margin (c m m' : R) :
  0 < c -> m < m' -> m' < 1 -> c / (1 - m) < c / (1 - m').
Proof.
  intros Hc Hm Hm'. unfold Rdiv. apply Rmult_lt_compat_l; [ exact Hc | ].
  apply Rinv_lt_contravar; [ | lra ].
  apply Rmult_lt_0_compat; lra.
Qed.

(** C6. For a positive base cost, a margin in [0,1) and a discount in
    [0,1]: the discounted price is at most the undiscounted one; the price
    grows with the base cost and with the margin (order-preserving for every
    such discount, strictly so when the discount is below 1). *)
Theorem C6_calculate_price_monotone (c m vd : R) :
  0 < c -> 0 <= m < 1 -> 0 <= vd <= 1 ->
  exists p, calculate_price c m vd = Return p
    /\ (exists p0, calculate_price c m 0 = Return p0 /\ p <= p0)
    /\ (forall c', c <= c' ->
          exists p', calculate_price c' m vd = Return p'
            /\ p <= p' /\ (c < c' -> vd < 1 -> p < p'))
    /\ (forall m', m <= m' < 1 ->
          exists p', calculate_price c m' vd = Return p'
            /\ p <= p' /\ (m < m' -> vd < 1 -> p < p')).
Proof.
  intros Hc [Hm0 Hm1] [Hv0 Hv1].
  exists (c / (1 - m) * (1 - vd)).
  split; [ apply calculate_price_value; lra | ].
  split; [ | split ].
  - exists (c / (1 - m) * (1 - 0)).
    split; [ apply calculate_price_value; lra | ].
    apply Rmult_le_compat_l; [ apply quotient_nonneg; lra | lra ].
  - intros c' Hcc'. exists (c' / (1 - m) * (1 - vd)).
    split; [ apply calculate_price_value; lra | split ].
    + apply Rmult_le_compat_r; [ lra | apply quotient_le_cost; lra ].
    + intros Hlt Hvd. apply Rmult_lt_compat_r; [ lra | apply quotient_lt_cost; lra ].
  - intros m' [Hmm' Hm'1]. exists (c / (1 - m') * (1 - vd)).
    split; [ apply calculate_price_value; lra | split ].
    + apply Rmult_le_compat_r; [ lra | apply quotient_le_margin; lra ].
    + intros Hlt Hvd. apply Rmult_lt_compat_r; [ lra | apply quotient_lt_margin; lra ].
Qed.

Lemma C6_witness :
  exists p, calculate_price 10 0.3 0.1 = Return p
    /\ (exists p0, calculate_price 10 0.3 0 = Return p0 /\ p <= p0)
    /\ (forall c', 10 <= c' ->
          exists p', calculate_price c' 0.3 0.1 = Return p'
            /\ p <= p' /\ (10 < c' -> 0.1 < 1 -> p < p'))
    /\ (forall m', 0.3 <= m' < 1 ->
          exists p', calculate_price 10 m' 0.1 = Return p'
            /\ p <= p' /\ (0.3 < m' -> 0.1 < 1 -> p < p')).
Proof. apply (C6_calculate_price_monotone 10 0.3 0.1); lra. Defined.

(** C7 as stated fails: a full discount ([volume_discount = 1], inside the
    contract's range) gives the price 0, which is not strictly positive. *)
Lemma C7_counterexample :
  ~ (forall c m vd : R,
        0 < c -> 0 <= m < 1 -> 0 <= vd <= 1 ->
        exists p, calculate_price c m vd = Return p /\ 0 < p).
Proof.
  intros H. destruct (H 10 0.3 1) as [p [Hp Hpos]]; try lra.
  rewrite calculate_price_value in Hp by lra.
  injection Hp as Hp. rewrite <- Hp in Hpos.
  replace (10 / (1 - 0.3) * (1 - 1)) with 0 in Hpos by (field; lra). lra.
Qed.

(** C7, amended. For a positive base cost, a margin in [0,1) and a discount
    in [0,1] the calculator returns a non-negative number, strictly positive
    whenever the discount is below 1 and equal to 0 at discount 1. *)
Theorem C7_calculate_price_sign (c m vd : R) :
  0 < c -> 0 <= m < 1 -> 0 <= vd <= 1 ->
  exists p, calculate_price c m vd = Return p
    /\ 0 <= p /\ (vd < 1 -> 0 < p) /\ (vd = 1 -> p = 0).
Proof.
  intros Hc [Hm0 Hm1] [Hv0 Hv1].
  exists (c / (1 - m) * (1 - vd)).
  split; [ apply calculate_price_value; lra | ].
  pose proof (quotient_pos c m Hc Hm1) as Hq.
  split; [ | split ].
  - apply Rmult_le_pos; lra.
  - intros Hvd. apply Rmult_lt_0_compat; lra.
  - intros ->. replace (1 - 1) with 0 by lra. apply Rmult_0_r.
Qed.

Lemma C7_witness :
  exists p, calculate_price 10 0.3 0.1 = Return p
    /\ 0 <= p /\ (0.1 < 1 -> 0 < p) /\ (0.1 = 1 -> p = 0).
Proof. apply (C7_calculate_price_sign 10 0.3 0.1); lra. Defined.

(** On binary64 the price of a sum and the sum of the prices are one unit
    in the last place apart at base costs 0.1 and 0.2 with margin 0.3. *)
Example binary64_additivity_gap :
  calculate_price_binary64 (0.1 + 0.2) 0.3 0 = Return 0.42857142857142866%float
  /\ calculate_price_binary64 0.1 0.3 0 = Return 0.14285714285714288%float
  /\ calculate_price_binary64 0.2 0.3 0 = Return 0.28571428571428575%float
  /\ (0.14285714285714288 + 0.28571428571428575 = 0.4285714285714286)%float
  /\ (next_up 0.4285714285714286 = 0.42857142857142866)%float.
Proof. repeat split. Qed.

(** C10 as stated fails on the floats the code computes with: the price of
    [0.1 + 0.2] at margin 0.3 is not the sum of the prices of 0.1 and of
    0.2. *)
Lemma C10_counterexample :
  ~ (forall c1 c2 m vd p1 p2 : float,
        calculate_price_binary64 c1 m vd = Return p1 ->
        calculate_price_binary64 c2 m vd = Return p2 ->
        calculate_price_binary64 (c1 + c2) m vd = Return (p1 + p2)%float).
Proof.
  intros H.
  specialize (H 0.1 0.2 0.3 0 _ _ eq_refl eq_refl)%float.
  assert (E := f_equal
                 (fun r => match r with
                           | Return x => (x =? 0.42857142857142866)%float
                           | Raise _ => false
                           end) H).
  vm_compute in E. discriminate E.
Qed.

(** C10, amended. In exact (real) arithmetic the calculator is additive in
    the base cost: with a margin different from 1, the price of [c1 + c2]
    is the sum of the prices of [c1] and [c2]; likewise for the three-term
    sum of the cost-sensitivity surface, [X + Y + overhead_cost]. *)
Theorem C10_calculate_price_additive (c1 c2 m vd : R) :
  m <> 1 ->
  (exists p1 p2,
      calculate_price c1 m vd = Return p1
      /\ calculate_price c2 m vd = Return p2
      /\ calculate_price (c1 + c2) m vd = Return (p1 + p2))
  /\ (forall x y overhead_cost : R,
        exists px py po,
          calculate_price_default x m = Return px
          /\ calculate_price_default y m = Return py
          /\ calculate_price_default overhead_cost m = Return po
          /\ calculate_price_default (x + y + overhead_cost) m
             = Return (px + py + po)).
Proof.
  intros Hm. split.
  - exists (c1 / (1 - m) * (1 - vd)), (c2 / (1 - m) * (1 - vd)).
    rewrite !calculate_price_value by exact Hm.
    repeat split. f_equal. field. lra.
  - intros x y o. unfold calculate_price_default.
    exists (x / (1 - m) * (1 - 0)), (y / (1 - m) * (1 - 0)), (o / (1 - m) * (1 - 0)).
    rewrite !calculate_price_value by exact Hm.
    repeat split. f_equal. field. lra.
Qed.

Lemma C10_witness :
  (exists p1 p2,
      calculate_price 1 0.3 0.05 = Return p1
      /\ calculate_price 25 0.3 0.05 = Return p2
      /\ calculate_price (1 + 25) 0.3 0.05 = Return (p1 + p2))
  /\ (forall x y overhead_cost : R,
        exists px py po,
          calculate_price_default x 0.3 = Return px
          /\ calculate_price_default y 0.3 = Return py
          /\ calculate_price_default overhead_cost 0.3 = Return po
          /\ calculate_price_default (x + y + overhead_cost) 0.3
             = Return (px + py + po)).
Proof. apply (C10_calculate_price_additive 1 25 0.3 0.05); lra. Defined.

End PricingFacts.

(** ** Properties of the generator's building blocks *)

Section GeneratorBlocks.
Import Generator.
Context {RS : RandomState}.

Lemma bind_Return {A B : Type} (m : M A) (k : A -> M B) (s s' : rng) (a : A) :
  m s = Return (a, s') -> bind m k s = k a s'.
Proof. intros E. unfold bind. rewrite E. reflexivity. Qed.

Lemma bind_Raise {A B : Type} (m : M A) (k : A -> M B) (s : rng) (e : PyError) :
  m s = Raise e -> bind m k s = Raise e.
Proof. intros E. unfold bind. rewrite E. reflexivity. Qed.

Lemma bind_lift_Return {A B : Type} (r : Result A) (k : A -> M B) (s : rng) (a : A) :
  r = Return a -> bind (lift r) k s = k a s.
Proof. intros ->. reflexivity. Qed.

Lemma sample_n_length {A : Type} (draw : rng -> A * rng) (n : nat) (s : rng) :
  length (fst (sample_n draw n s)) = n.
Proof.
  revert s. induction n as [ | n IH]; intros s; simpl; [ reflexivity | ].
  destruct (draw s) as [x s1]. specialize (IH s1).
  destruct (sample_n draw n s1) as [xs s2]. simpl in *. now rewrite IH.
Qed.

Lemma sample_n_Forall {A : Type} (P : A -> Prop) (draw : rng -> A * rng) :
  (forall s, P (fst (draw s))) ->
  forall n s, Forall P (fst (sample_n draw n s)).
Proof.
  intros Hdraw. induction n as [ | n IH]; intros s; simpl; [ constructor | ].
  pose proof (Hdraw s) as Hx. destruct (draw s) as [x s1]. specialize (IH s1).
  destruct (sample_n draw n s1) as [xs s2]. simpl in *. now constructor.
Qed.

Lemma sized_nonneg {A : Type} (draw : rng -> A * rng) (size : Z) (s : rng) :
  (0 <= size)%Z ->
  sized draw size s = Return (sample_n draw (Z.to_nat size) s).
Proof.
  intros Hsize. unfold sized.
  destruct (Z.ltb_spec size 0) as [Hneg | _]; [ lia | reflexivity ].
Qed.

Lemma sized_negative {A : Type} (draw : rng -> A * rng) (size : Z) (s : rng) :
  (size < 0)%Z -> sized draw size s = Raise ValueError.
Proof.
  intros Hsize. unfold sized.
  destruct (Z.ltb_spec size 0) as [_ | Hpos]; [ reflexivity | lia ].
Qed.

Lemma draw_uniform_range (low high : R) (s : rng) :
  low < high -> low <= fst (draw_uniform low high s) < high.
Proof.
  intros Hlh. unfold draw_uniform.
  pose proof (random_sample_range s) as Hx.
  destruct (random_sample s) as [x s']. simpl in *. nra.
Qed.

Lemma draw_randint_range (low high : Z) (s : rng) :
  (low < high)%Z -> (low <= fst (draw_randint low high s) < high)%Z.
Proof.
  intros Hlh. unfold draw_randint.
  pose proof (random_interval_range (high - low - 1) s ltac:(lia)) as Hk.
  destruct (random_interval (high - low - 1)%Z s) as [k s']. simpl in *. lia.
Qed.

Lemma np_random_uniform_nonneg (low high : R) (size : Z) (s : rng) :
  (0 <= size)%Z ->
  np_random_uniform low high size s
  = Return (sample_n (draw_uniform low high) (Z.to_nat size) s).
Proof. apply sized_nonneg. Qed.

Lemma np_random_normal_nonneg (loc scale : R) (size : Z) (s : rng) :
  0 <= scale -> (0 <= size)%Z ->
  np_random_normal loc scale size s
  = Return (sample_n (draw_normal loc scale) (Z.to_nat size) s).
Proof.
  intros Hscale Hsize. unfold np_random_normal.
  destruct (Rlt_dec scale 0) as [Hneg | _]; [ lra | ].
  now apply sized_nonneg.
Qed.

Lemma np_random_randint_nonneg (low high size : Z) (s : rng) :
  (low < high)%Z -> (0 <= size)%Z ->
  np_random_randint low high size s
  = Return (sample_n (draw_randint low high) (Z.to_nat size) s).
Proof.
  intros Hlh Hsize. unfold np_random_randint.
  destruct (Z.leb_spec high low) as [Hbad | _]; [ lia | ].
  now apply sized_nonneg.
Qed.

Lemma sample_uniform_support (low high : R) (n : nat) (s : rng) :
  low < high ->
  Forall (fun u => low <= u < high) (fst (sample_n (draw_uniform low high) n s)).
Proof.
  intros Hlh. apply sample_n_Forall. intros s0. now apply draw_uniform_range.
Qed.

Lemma sample_randint_support (low high : Z) (n : nat) (s : rng) :
  (low < high)%Z ->
  Forall (fun k => (low <= k < high)%Z)
         (fst (sample_n (draw_randint low high) n s)).
Proof.
  intros Hlh. apply sample_n_Forall. intros s0. now apply draw_randint_range.
Qed.

Lemma np_random_uniform_negative (low high : R) (size : Z) (s : rng) :
  (size < 0)%Z -> np_random_uniform low high size s = Raise ValueError.
Proof. apply sized_negative. Qed.

(** Arrays. *)

Lemma np_arange_length (n : Z) : length (np_arange n) = Z.to_nat n.
Proof. unfold np_arange. now rewrite length_map, length_seq. Qed.

Lemma seasonal_length (days : Z) (a : R) :
  length (seasonal days a) = Z.to_nat days.
Proof. unfold seasonal. rewrite length_map. apply np_arange_length. Qed.

Lemma seasonal_nth (days : Z) (a : R) (i : nat) :
  (i < Z.to_nat days)%nat ->
  nth_error (seasonal days a) i = Some (sin (INR i * 2 * PI / 365) * a).
Proof.
  intros Hi. unfold seasonal, np_arange.
  rewrite map_map. rewrite nth_error_map.
  rewrite nth_error_seq.
  destruct (Nat.ltb_spec i (Z.to_nat days)) as [_ | Hge]; [ | lia ].
  simpl. now rewrite <- INR_IZR_INZ.
Qed.

Lemma zip_with_length {A B C : Type} (f : A -> B -> C) (xs : list A) (ys : list B) :
  length xs = length ys -> length (zip_with f xs ys) = length xs.
Proof.
  revert ys. induction xs as [ | x xs IH]; intros [ | y ys] H; simpl in *;
    try reflexivity; try discriminate.
  f_equal. apply IH. now injection H.
Qed.

Lemma zip_with_nth {A B C : Type} (f : A -> B -> C) (xs : list A) (ys : list B)
  (i : nat) (x : A) (y : B) :
  nth_error xs i = Some x -> nth_error ys i = Some y ->
  nth_error (zip_with f xs ys) i = Some (f x y).
Proof.
  revert ys i. induction xs as [ | x0 xs IH]; intros [ | y0 ys] [ | i] Hx Hy;
    simpl in *; try discriminate.
  - now injection Hx as ->; injection Hy as ->.
  - now apply IH.
Qed.

Lemma np_add_same_length (xs ys : list R) :
  length xs = length ys -> np_add xs ys = Return (zip_with Rplus xs ys).
Proof.
  intros H. unfold np_add. rewrite H, Nat.eqb_refl. reflexivity.
Qed.

Lemma cumsum_from_length (acc : R) (xs : list R) :
  length (cumsum_from acc xs) = length xs.
Proof.
  revert acc. induction xs as [ | x xs IH]; intros acc; simpl; [ reflexivity | ].
  now rewrite IH.
Qed.

Lemma cumsum_from_nth (acc : R) (xs : list R) (i : nat) :
  (i < length xs)%nat ->
  nth_error (cumsum_from acc xs) i = Some (acc + Rsum (firstn (S i) xs)).
Proof.
  revert acc i. induction xs as [ | x xs IH]; intros acc i Hi; simpl in Hi; [ lia | ].
  destruct i as [ | i].
  - simpl. f_equal. destruct xs; simpl; lra.
  - change (nth_error (cumsum_from (acc + x) xs) i
            = Some (acc + (x + Rsum (firstn (S i) xs)))).
    rewrite IH by lia. f_equal. lra.
Qed.

Lemma np_cumsum_length (xs : list R) : length (np_cumsum xs) = length xs.
Proof. apply cumsum_from_length. Qed.

Lemma np_cumsum_nth (xs : list R) (i : nat) :
  (i < length xs)%nat ->
  nth_error (np_cumsum xs) i = Some (Rsum (firstn (S i) xs)).
Proof.
  intros Hi. unfold np_cumsum. rewrite cumsum_from_nth by exact Hi.
  f_equal. lra.
Qed.

(** Dates. *)

Lemma day_positive : (0 < MICROSECONDS_PER_DAY)%Z.
Proof. reflexivity. Qed.

Lemma window_span (now : datetime) (days : Z) :
  ((now - (now - timedelta_days (days - 1))) / MICROSECONDS_PER_DAY = days - 1)%Z.
Proof.
  unfold timedelta_days.
  replace (now - (now - (days - 1) * MICROSECONDS_PER_DAY))%Z
    with ((days - 1) * MICROSECONDS_PER_DAY)%Z by ring.
  apply Z.div_mul. pose proof day_positive. lia.
Qed.

Lemma date_range_window_length (now : datetime) (days : Z) :
  (0 <= days)%Z ->
  length (date_range (now - timedelta_days (days - 1))%Z now) = Z.to_nat days.
Proof.
  intros Hdays. unfold date_range.
  destruct (Z.ltb_spec now (now - timedelta_days (days - 1))) as [Hlt | Hge].
  - unfold timedelta_days in Hlt. pose proof day_positive.
    assert (days = 0%Z) by nia. subst days. reflexivity.
  - rewrite length_map, length_seq, window_span.
    unfold timedelta_days in Hge. pose proof day_positive.
    assert (1 <= days)%Z by nia. lia.
Qed.

Lemma date_range_window_nth (now : datetime) (days : Z) (i : nat) :
  (i < Z.to_nat days)%nat ->
  nth_error (date_range (now - timedelta_days (days - 1))%Z now) i
  = Some (now - timedelta_days (days - 1 - Z.of_nat i))%Z.
Proof.
  intros Hi. unfold date_range.
  destruct (Z.ltb_spec now (now - timedelta_days (days - 1))) as [Hlt | Hge].
  - unfold timedelta_days in Hlt. pose proof day_positive. nia.
  - rewrite nth_error_map, nth_error_seq, window_span.
    destruct (Nat.ltb_spec i (S (Z.to_nat (days - 1)))) as [_ | Hbad]; [ | lia ].
    simpl. f_equal. unfold timedelta_days. ring.
Qed.

Lemma calendar_date_next_day (t : datetime) :
  calendar_date (t + timedelta_days 1)%Z = (calendar_date t + 1)%Z.
Proof.
  unfold calendar_date, timedelta_days.
  rewrite Z.div_add by (pose proof day_positive; lia). reflexivity.
Qed.

(** The table constructor. *)

Lemma pd_DataFrame_same_length (n : nat) (dates : list datetime)
  (steel aluminum fiberglass labor electricity volume : list R) :
  length dates = n -> length steel = n -> length aluminum = n ->
  length fiberglass = n -> length labor = n -> length electricity = n ->
  length volume = n ->
  pd_DataFrame dates steel aluminum fiberglass labor electricity volume
  = Return {| Date := dates; Steel_Cost := steel; Aluminum_Cost := aluminum;
              Fiberglass_Cost := fiberglass; Labor_Rate := labor;
              Electricity_Cost := electricity; Order_Volume := volume |}.
Proof.
  intros H0 H1 H2 H3 H4 H5 H6. unfold pd_DataFrame. simpl.
  rewrite H0, H1, H2, H3, H4, H5, H6, !Nat.eqb_refl. reflexivity.
Qed.

End GeneratorBlocks.

(** ** What one run of the generator returns *)

Section GeneratorRun.
Import Generator.
Context {RS : RandomState}.

(** One array draw of the generator: the call returns what [sample_n]
    gives; name the array, the next state and the array's length. *)
Ltac take_draws E xs s' L :=
  rewrite (bind_Return _ _ _ _ _
             (eq_trans E (f_equal Return (surjective_pairing _))));
  match goal with
  | |- context [fst (sample_n ?draw ?n ?s)] =>
      pose proof (sample_n_length draw n s) as L;
      destruct (sample_n draw n s) as [xs s']
  end;
  cbn [fst snd] in *.

(** One elementwise sum of the generator, of two arrays of equal length. *)
Ltac add_arrays Hlen :=
  rewrite (bind_lift_Return _ _ _ _ (np_add_same_length _ _ Hlen)).

(** The arrays of a run lie in the support of their distributions. *)
Lemma run_draws_in_support (n : nat) (s : rng) :
  in_support n (fst (run_draws n s)).
Proof.
  unfold run_draws.
  pose proof (sample_n_length (draw_uniform 0.5 1.0) n s) as L1.
  pose proof (sample_uniform_support 0.5 1.0 n s ltac:(lra)) as F1.
  destruct (sample_n (draw_uniform 0.5 1.0) n s) as [u1 s1].
  pose proof (sample_n_length (draw_uniform 1.0 1.5) n s1) as L2.
  pose proof (sample_uniform_support 1.0 1.5 n s1 ltac:(lra)) as F2.
  destruct (sample_n (draw_uniform 1.0 1.5) n s1) as [u2 s2].
  pose proof (sample_n_length (draw_uniform 0.3 0.6) n s2) as L3.
  pose proof (sample_uniform_support 0.3 0.6 n s2 ltac:(lra)) as F3.
  destruct (sample_n (draw_uniform 0.3 0.6) n s2) as [u3 s3].
  pose proof (sample_n_length (draw_uniform 20 30) n s3) as L4.
  pose proof (sample_uniform_support 20 30 n s3 ltac:(lra)) as F4.
  destruct (sample_n (draw_uniform 20 30) n s3) as [b s4].
  pose proof (sample_n_length (draw_normal 0 0.01) n s4) as L5.
  destruct (sample_n (draw_normal 0 0.01) n s4) as [e s5].
  pose proof (sample_n_length (draw_uniform 0.1 0.2) n s5) as L6.
  pose proof (sample_uniform_support 0.1 0.2 n s5 ltac:(lra)) as F6.
  destruct (sample_n (draw_uniform 0.1 0.2) n s5) as [u6 s6].
  pose proof (sample_n_length (draw_randint 50 500) n s6) as L7.
  pose proof (sample_randint_support 50 500 n s6 ltac:(lia)) as F7.
  destruct (sample_n (draw_randint 50 500) n s6) as [k s7].
  unfold in_support. simpl in *. tauto.
Qed.

(** With a non-negative day count the generator returns the table assembled
    from the seven arrays of [days] draws each that it takes, in order, from
    the random state. *)
Lemma generate_fake_data_run (now : datetime) (days : Z) (s : rng) :
  (0 <= days)%Z ->
  generate_fake_data now days s
  = Return (assemble now days (fst (run_draws (Z.to_nat days) s)),
            snd (run_draws (Z.to_nat days) s)).
Proof.
  intros Hdays.
  unfold generate_fake_data, run_draws.
  take_draws (np_random_uniform_nonneg 0.5 1.0 days s Hdays) u1 s1 L1.
  add_arrays (eq_trans L1 (eq_sym (seasonal_length days 0.1))).
  take_draws (np_random_uniform_nonneg 1.0 1.5 days s1 Hdays) u2 s2 L2.
  add_arrays (eq_trans L2 (eq_sym (seasonal_length days 0.15))).
  take_draws (np_random_uniform_nonneg 0.3 0.6 days s2 Hdays) u3 s3 L3.
  add_arrays (eq_trans L3 (eq_sym (seasonal_length days 0.05))).
  take_draws (np_random_uniform_nonneg 20 30 days s3 Hdays) b s4 L4.
  take_draws (np_random_normal_nonneg 0 0.01 days s4 ltac:(lra) Hdays) e s5 L5.
  add_arrays (eq_trans L4 (eq_sym (eq_trans (np_cumsum_length e) L5))).
  take_draws (np_random_uniform_nonneg 0.1 0.2 days s5 Hdays) u6 s6 L6.
  add_arrays (eq_trans L6 (eq_sym (seasonal_length days 0.02))).
  take_draws (np_random_randint_nonneg 50 500 days s6 ltac:(lia) Hdays) k s7 L7.
  assert (L7' : length (map IZR k) = Z.to_nat days) by now rewrite length_map.
  add_arrays (eq_trans L7' (eq_sym (seasonal_length days 100))).
  unfold lift.
  rewrite (pd_DataFrame_same_length (Z.to_nat days));
    [ reflexivity | now apply date_range_window_length | .. ];
    rewrite zip_with_length; rewrite ?seasonal_length, ?np_cumsum_length;
    congruence.
Qed.

(** With a negative day count the first array draw raises. *)
Lemma generate_fake_data_negative (now : datetime) (days : Z) (s : rng) :
  (days < 0)%Z -> generate_fake_data now days s = Raise ValueError.
Proof.
  intros Hdays. unfold generate_fake_data.
  apply bind_Raise. now apply np_random_uniform_negative.
Qed.

Lemma seasonal_angle (i : nat) : INR i * 2 * PI / 365 = 2 * PI * INR i / 365.
Proof. unfold Rdiv. ring. Qed.

Lemma nth_error_draw (xs : list R) (n i : nat) :
  length xs = n -> (i < n)%nat -> nth_error xs i = Some (nth i xs 0).
Proof. intros <- Hi. now apply nth_error_nth'. Qed.

(** Row [i] of the assembled table is the specification's record. *)
Lemma iloc_assemble (now : datetime) (days : Z) (d : Draws) (i : nat) :
  in_support (Z.to_nat days) d -> (i < Z.to_nat days)%nat ->
  iloc (assemble now days d) i = Some (spec_record now days d i).
Proof.
  intros ((L1 & _) & (L2 & _) & (L3 & _) & (L4 & _) & L5 & (L6 & _) & (L7 & _)) Hi.
  unfold iloc, assemble.
  cbn [Date Steel_Cost Aluminum_Cost Fiberglass_Cost Labor_Rate
       Electricity_Cost Order_Volume].
  rewrite date_range_window_nth by exact Hi.
  rewrite (zip_with_nth Rplus (u_steel d) _ i (nth i (u_steel d) 0) _
             (nth_error_draw _ _ _ L1 Hi) (seasonal_nth days _ i Hi)).
  rewrite (zip_with_nth Rplus (u_aluminum d) _ i (nth i (u_aluminum d) 0) _
             (nth_error_draw _ _ _ L2 Hi) (seasonal_nth days _ i Hi)).
  rewrite (zip_with_nth Rplus (u_fiberglass d) _ i (nth i (u_fiberglass d) 0) _
             (nth_error_draw _ _ _ L3 Hi) (seasonal_nth days _ i Hi)).
  rewrite (zip_with_nth Rplus (b_labor d) _ i (nth i (b_labor d) 0) _
             (nth_error_draw _ _ _ L4 Hi)
             (np_cumsum_nth (e_labor d) i (eq_ind_r (fun k => (i < k)%nat) Hi L5))).
  rewrite (zip_with_nth Rplus (u_electricity d) _ i (nth i (u_electricity d) 0) _
             (nth_error_draw _ _ _ L6 Hi) (seasonal_nth days _ i Hi)).
  assert (Hn : nth_error (map IZR (n_order d)) i
               = Some (IZR (nth i (n_order d) 0%Z))).
  { rewrite nth_error_map, (nth_error_nth' _ 0%Z) by lia. reflexivity. }
  rewrite (zip_with_nth Rplus _ _ i _ _ Hn (seasonal_nth days _ i Hi)).
  unfold spec_record. rewrite seasonal_angle.
  f_equal. f_equal; lra.
Qed.

(** Past the last row there is no record. *)
Lemma iloc_assemble_out_of_range (now : datetime) (days : Z) (d : Draws) (i : nat) :
  (0 <= days)%Z -> (Z.to_nat days <= i)%nat ->
  iloc (assemble now days d) i = None.
Proof.
  intros Hdays Hi. unfold iloc, assemble. cbn [Date].
  assert (E : nth_error (date_range (now - timedelta_days (days - 1))%Z now) i = None).
  { apply nth_error_None. now rewrite date_range_window_length. }
  rewrite E. reflexivity.
Qed.

Lemma support_nth (P : R -> Prop) (xs : list R) (i : nat) :
  Forall P xs -> (i < length xs)%nat -> P (nth i xs 0).
Proof.
  intros HF Hi. rewrite Forall_forall in HF. apply HF. now apply nth_In.
Qed.

Lemma support_nth_Z (P : Z -> Prop) (xs : list Z) (i : nat) :
  Forall P xs -> (i < length xs)%nat -> P (nth i xs 0%Z).
Proof.
  intros HF Hi. rewrite Forall_forall in HF. apply HF. now apply nth_In.
Qed.

End GeneratorRun.

(** ** The generator's rows *)

Section GeneratorRows.
Import Generator.
Context {RS : RandomState}.

(** Everything the claims need about a run with a non-negative day count:
    the table returned, the arrays it was assembled from, and its rows. *)
Lemma generated_rows (now : datetime) (days : Z) (s : rng) :
  (0 <= days)%Z ->
  exists df s' d,
    generate_fake_data now days s = Return (df, s')
    /\ d = fst (run_draws (Z.to_nat days) s)
    /\ df = assemble now days d
    /\ in_support (Z.to_nat days) d
    /\ (forall i, (i < Z.to_nat days)%nat ->
                  iloc df i = Some (spec_record now days d i))
    /\ (forall i, (Z.to_nat days <= i)%nat -> iloc df i = None).
Proof.
  intros Hdays.
  exists (assemble now days (fst (run_draws (Z.to_nat days) s))),
         (snd (run_draws (Z.to_nat days) s)),
         (fst (run_draws (Z.to_nat days) s)).
  pose proof (run_draws_in_support (Z.to_nat days) s) as Hsup.
  split; [ now apply generate_fake_data_run | ].
  split; [ reflexivity | ]. split; [ reflexivity | ].
  split; [ exact Hsup | ]. split.
  - intros i Hi. now apply iloc_assemble.
  - intros i Hi. now apply iloc_assemble_out_of_range.
Qed.

Lemma in_support_zero (d : Draws) :
  in_support 0 d ->
  d = {| u_steel := []; u_aluminum := []; u_fiberglass := []; b_labor := [];
         e_labor := []; u_electricity := []; n_order := [] |}.
Proof.
  intros ((L1 & _) & (L2 & _) & (L3 & _) & (L4 & _) & L5 & (L6 & _) & (L7 & _)).
  destruct d as [u1 u2 u3 b e u6 k]. simpl in *.
  apply length_zero_iff_nil in L1, L2, L3, L4, L5, L6, L7. now subst.
Qed.

Lemma generate_fake_data_zero (now : datetime) (s : rng) :
  exists s', generate_fake_data now 0 s = Return (empty_table, s').
Proof.
  destruct (generated_rows now 0 s ltac:(lia))
    as (df & s' & d & E & _ & Hdf & Hsup & _).
  exists s'. rewrite E, Hdf, (in_support_zero d Hsup).
  unfold assemble, empty_table.
  cbn [u_steel u_aluminum u_fiberglass b_labor e_labor u_electricity n_order].
  assert (Hd : date_range (now - timedelta_days (0 - 1))%Z now = []).
  { apply length_zero_iff_nil. now rewrite date_range_window_length. }
  rewrite Hd. reflexivity.
Qed.

(** The sine term stays within its amplitude. *)
Lemma seasonal_term_bounds (a : R) (i : nat) :
  0 <= a -> - a <= a * sin (2 * PI * INR i / 365) <= a.
Proof.
  intros Ha. pose proof (SIN_bound (2 * PI * INR i / 365)) as [Hlo Hhi]. nra.
Qed.

(** Over the first half of the period the sine term is non-negative. *)
Lemma seasonal_first_half (i : nat) :
  (i <= 182)%nat -> 0 <= sin (2 * PI * INR i / 365).
Proof.
  intros Hi. pose proof PI_RGT_0 as Hpi.
  assert (Hr : 0 <= INR i <= 182).
  { split; [ apply pos_INR | ].
    replace 182 with (INR 182) by (rewrite INR_IZR_INZ; reflexivity).
    now apply le_INR. }
  apply sin_ge_0.
  - unfold Rdiv. apply Rmult_le_pos; [ | lra ]. nra.
  - apply Rmult_le_reg_r with 365; [ lra | ].
    unfold Rdiv. rewrite Rmult_assoc, Rinv_l, Rmult_1_r by lra. nra.
Qed.

(** Late in the third quarter of the period the sine is below -1/2. *)
Lemma seasonal_day_273 : sin (2 * PI * INR 273 / 365) < - (1 / 2).
Proof.
  pose proof PI_RGT_0 as Hpi.
  replace (INR 273) with 273 by (rewrite INR_IZR_INZ; reflexivity).
  replace (2 * PI * 273 / 365) with (181 * PI / 365 + PI) by field.
  rewrite neg_sin.
  assert (H : sin (PI / 6) < sin (181 * PI / 365)).
  { apply sin_increasing_1; lra. }
  rewrite sin_PI6 in H. lra.
Qed.

End GeneratorRows.

(** ** Runs from the constant random state *)

Section ConstantState.
Import Generator.
Variable z : R.

Lemma constant_sample_n {A : Type} (draw : unit -> A * unit) (n : nat) (s : unit) :
  @sample_n (constant_state z) A draw n s = (repeat (fst (draw tt)) n, tt).
Proof.
  revert s. induction n as [ | n IH]; intros []; simpl; [ reflexivity | ].
  destruct (draw tt) as [x []]. rewrite IH. reflexivity.
Qed.

Lemma constant_run_draws (n : nat) :
  @run_draws (constant_state z) n tt
  = ({| u_steel := repeat 0.5 n; u_aluminum := repeat 1.0 n;
        u_fiberglass := repeat 0.3 n; b_labor := repeat 20 n;
        e_labor := repeat (0.01 * z) n; u_electricity := repeat 0.1 n;
        n_order := repeat 50%Z n |}, tt).
Proof.
  unfold run_draws. rewrite !constant_sample_n.
  unfold draw_uniform, draw_normal, draw_randint.
  cbn [constant_state random_sample standard_normal random_interval fst].
  f_equal. f_equal; f_equal; lra.
Qed.

Lemma nth_repeat_lt {A : Type} (a d : A) (n i : nat) :
  (i < n)%nat -> nth i (repeat a n) d = a.
Proof.
  revert i. induction n as [ | n IH]; intros i Hi; [ lia | ].
  destruct i as [ | i]; simpl; [ reflexivity | apply IH; lia ].
Qed.

(** Row [i] of a run from the constant state. *)
Lemma constant_state_row (now : datetime) (days : Z) (i : nat) :
  (i < Z.to_nat days)%nat ->
  exists df,
    @generate_fake_data (constant_state z) now days tt = Return (df, tt)
    /\ iloc df i = Some {|
         date := (now - timedelta_days (days - 1 - Z.of_nat i))%Z;
         steel_cost := 0.5 + 0.1 * sin (2 * PI * INR i / 365);
         aluminum_cost := 1.0 + 0.15 * sin (2 * PI * INR i / 365);
         fiberglass_cost := 0.3 + 0.05 * sin (2 * PI * INR i / 365);
         labor_rate := 20 + Rsum (firstn (S i) (repeat (0.01 * z) (Z.to_nat days)));
         electricity_cost := 0.1 + 0.02 * sin (2 * PI * INR i / 365);
         order_volume := 50 + 100 * sin (2 * PI * INR i / 365) |}.
Proof.
  intros Hi.
  destruct (@generated_rows (constant_state z) now days tt ltac:(lia))
    as (df & s' & d & E & Hd & _ & _ & Hrow & _).
  exists df. destruct s'. split; [ exact E | ].
  rewrite (Hrow i Hi), Hd, constant_run_draws.
  unfold spec_record.
  cbn [fst u_steel u_aluminum u_fiberglass b_labor e_labor u_electricity n_order].
  rewrite !nth_repeat_lt by exact Hi. reflexivity.
Qed.

End ConstantState.

(** ** Properties of the series generator *)

Section GeneratorClaims.
Import Generator.
Context {RS : RandomState}.

(** C3, amended. The generator validates nothing itself: it raises exactly
    when the day count is negative, the error being the [ValueError] of the
    first array draw; a day count of 0 is accepted and gives the table with
    no rows. *)
Theorem C3_only_negative_days_rejected (now : datetime) (days : Z) (s : rng) :
  (raises (generate_fake_data now days s) <-> (days < 0)%Z)
  /\ ((days < 0)%Z -> generate_fake_data now days s = Raise ValueError)
  /\ (days = 0%Z ->
      exists s', generate_fake_data now days s = Return (empty_table, s')).
Proof.
  split; [ split | split ].
  - intros [e He]. destruct (Z.lt_ge_cases days 0) as [Hneg | Hpos]; [ exact Hneg | ].
    rewrite generate_fake_data_run in He by exact Hpos. discriminate.
  - intros Hneg. exists ValueError. now apply generate_fake_data_negative.
  - apply generate_fake_data_negative.
  - intros ->. apply generate_fake_data_zero.
Qed.

(** C4. For a positive day count the generator returns exactly [days]
    records; the date of record [i] is [now] minus [days - 1 - i] whole days,
    so the dates are strictly increasing (oldest first), step by exactly one
    calendar day, and the last one is [now]. *)
Theorem C4_dates_contiguous (now : datetime) (days : Z) (s : rng) :
  (0 < days)%Z ->
  exists df s',
    generate_fake_data now days s = Return (df, s')
    /\ nrows df = Z.to_nat days
    /\ (forall i, (exists r, iloc df i = Some r) <-> (i < Z.to_nat days)%nat)
    /\ (forall i r, iloc df i = Some r ->
                    nth_error (Date df) i = Some (date r)
                    /\ date r = (now - timedelta_days (days - 1 - Z.of_nat i))%Z)
    /\ (forall i j ri rj,
          iloc df i = Some ri -> iloc df j = Some rj -> (i < j)%nat ->
          (date ri < date rj)%Z)
    /\ (forall i ri rj,
          iloc df i = Some ri -> iloc df (S i) = Some rj ->
          date rj = (date ri + timedelta_days 1)%Z
          /\ calendar_date (date rj) = (calendar_date (date ri) + 1)%Z)
    /\ (exists r, iloc df (Z.to_nat days - 1) = Some r /\ date r = now).
Proof.
  intros Hdays.
  destruct (generated_rows now days s ltac:(lia))
    as (df & s' & d & E & _ & Hdf & Hsup & Hrow & Hnone).
  exists df, s'. split; [ exact E | ].
  assert (Hin : forall i r, iloc df i = Some r ->
                  (i < Z.to_nat days)%nat /\ r = spec_record now days d i).
  { intros i r Hr. destruct (Nat.lt_ge_cases i (Z.to_nat days)) as [Hi | Hi].
    - split; [ exact Hi | ]. rewrite (Hrow i Hi) in Hr. now injection Hr.
    - rewrite (Hnone i Hi) in Hr. discriminate. }
  split; [ | split; [ | split; [ | split; [ | split ] ] ] ].
  - unfold nrows. rewrite Hdf. cbn [assemble Date].
    apply date_range_window_length. lia.
  - intros i. split.
    + intros [r Hr]. now apply (Hin i r).
    + intros Hi. eexists. now apply Hrow.
  - intros i r Hr. destruct (Hin i r Hr) as [Hi ->]. split; [ | reflexivity ].
    rewrite Hdf. cbn [assemble Date spec_record date].
    now apply date_range_window_nth.
  - intros i j ri rj Hi Hj Hij.
    destruct (Hin i ri Hi) as [_ ->]. destruct (Hin j rj Hj) as [_ ->].
    cbn [spec_record date]. unfold timedelta_days.
    pose proof day_positive. nia.
  - intros i ri rj Hi Hj.
    destruct (Hin i ri Hi) as [_ ->]. destruct (Hin (S i) rj Hj) as [_ ->].
    cbn [spec_record date].
    assert (Hstep : (now - timedelta_days (days - 1 - Z.of_nat (S i))
                     = now - timedelta_days (days - 1 - Z.of_nat i)
                       + timedelta_days 1)%Z).
    { unfold timedelta_days. lia. }
    rewrite Hstep. split; [ reflexivity | apply calendar_date_next_day ].
  - exists (spec_record now days d (Z.to_nat days - 1)). split.
    + apply Hrow. lia.
    + cbn [spec_record date]. unfold timedelta_days.
      replace (days - 1 - Z.of_nat (Z.to_nat days - 1))%Z with 0%Z by lia. lia.
Qed.

(** The rows of a run with a positive day count, with the ranges of the
    draws behind each of them. *)
Lemma generated_rows_in_range (now : datetime) (days : Z) (s : rng) :
  (0 < days)%Z ->
  exists df s' d,
    generate_fake_data now days s = Return (df, s')
    /\ d = fst (run_draws (Z.to_nat days) s)
    /\ (forall i, (i < Z.to_nat days)%nat ->
         iloc df i = Some (spec_record now days d i)
         /\ 0.5 <= nth i (u_steel d) 0 < 1.0
         /\ 1.0 <= nth i (u_aluminum d) 0 < 1.5
         /\ 0.3 <= nth i (u_fiberglass d) 0 < 0.6
         /\ 0.1 <= nth i (u_electricity d) 0 < 0.2
         /\ 20 <= nth i (b_labor d) 0 < 30
         /\ (50 <= nth i (n_order d) 0 < 500)%Z)
    /\ (forall i, (Z.to_nat days <= i)%nat -> iloc df i = None).
Proof.
  intros Hdays.
  destruct (generated_rows now days s ltac:(lia))
    as (df & s' & d & E & Hd & _ & Hsup & Hrow & Hnone).
  exists df, s', d. split; [ exact E | ]. split; [ exact Hd | ].
  split; [ | exact Hnone ].
  intros i Hi. split; [ now apply Hrow | ].
  destruct Hsup as ((L1 & F1) & (L2 & F2) & (L3 & F3) & (L4 & F4) & _
                    & (L6 & F6) & (L7 & F7)).
  pose proof (support_nth _ _ i F1 ltac:(lia)) as H1.
  pose proof (support_nth _ _ i F2 ltac:(lia)) as H2.
  pose proof (support_nth _ _ i F3 ltac:(lia)) as H3.
  pose proof (support_nth _ _ i F4 ltac:(lia)) as H4.
  pose proof (support_nth _ _ i F6 ltac:(lia)) as H6.
  pose proof (support_nth_Z _ _ i F7 ltac:(lia)) as H7.
  cbv beta in *. tauto.
Qed.

(** C5. For a positive day count, every record follows the stated
    formulas: each seasonal metric is a draw from its range plus
    [amplitude * sin(2 pi i / 365)], the labor rate a draw from [20,30] plus
    the sum of the normal increments up through day [i], and the order
    volume an integer draw from [50,500) plus [100 * sin(2 pi i / 365)];
    the draws are the ones the run takes from the random state. *)
Theorem C5_record_formulas (now : datetime) (days : Z) (s : rng) :
  (0 < days)%Z ->
  exists df s' d,
    generate_fake_data now days s = Return (df, s')
    /\ d = fst (run_draws (Z.to_nat days) s)
    /\ forall i, (i < Z.to_nat days)%nat ->
         iloc df i = Some (spec_record now days d i)
         /\ 0.5 <= nth i (u_steel d) 0 <= 1.0
         /\ 1.0 <= nth i (u_aluminum d) 0 <= 1.5
         /\ 0.3 <= nth i (u_fiberglass d) 0 <= 0.6
         /\ 0.1 <= nth i (u_electricity d) 0 <= 0.2
         /\ 20 <= nth i (b_labor d) 0 <= 30
         /\ (50 <= nth i (n_order d) 0 < 500)%Z.
Proof.
  intros Hdays.
  destruct (generated_rows_in_range now days s Hdays)
    as (df & s' & d & E & Hd & Hrow & _).
  exists df, s', d. split; [ exact E | ]. split; [ exact Hd | ].
  intros i Hi.
  destruct (Hrow i Hi) as (Hrec & H1 & H2 & H3 & H6 & H4 & H7).
  repeat split; try lra; try lia. exact Hrec.
Qed.

(** C8, amended. For a positive day count, every record has strictly
    positive steel, aluminum, fiberglass and electricity costs (at least
    0.4, 0.85, 0.25 and 0.08); its labor rate is the drift (the sum of the
    normal increments up through that day) plus a base in [20,30), hence
    strictly positive whenever the drift is above -20. *)
Theorem C8_costs_positive (now : datetime) (days : Z) (s : rng) :
  (0 < days)%Z ->
  exists df s' d,
    generate_fake_data now days s = Return (df, s')
    /\ d = fst (run_draws (Z.to_nat days) s)
    /\ forall i r, iloc df i = Some r ->
         (0 < steel_cost r /\ 0 < aluminum_cost r
          /\ 0 < fiberglass_cost r /\ 0 < electricity_cost r)
         /\ (0.4 <= steel_cost r /\ 0.85 <= aluminum_cost r
             /\ 0.25 <= fiberglass_cost r /\ 0.08 <= electricity_cost r)
         /\ 20 + Rsum (firstn (S i) (e_labor d)) <= labor_rate r
            < 30 + Rsum (firstn (S i) (e_labor d))
         /\ (- 20 < Rsum (firstn (S i) (e_labor d)) -> 0 < labor_rate r).
Proof.
  intros Hdays.
  destruct (generated_rows_in_range now days s Hdays)
    as (df & s' & d & E & Hd & Hrow & Hnone).
  exists df, s', d. split; [ exact E | ]. split; [ exact Hd | ].
  intros i r Hr.
  destruct (Nat.lt_ge_cases i (Z.to_nat days)) as [Hi | Hi];
    [ | rewrite (Hnone i Hi) in Hr; discriminate ].
  destruct (Hrow i Hi) as (Hrec & H1 & H2 & H3 & H6 & H4 & _).
  rewrite Hrec in Hr. injection Hr as <-.
  cbn [spec_record steel_cost aluminum_cost fiberglass_cost labor_rate
       electricity_cost].
  pose proof (seasonal_term_bounds 0.1 i ltac:(lra)).
  pose proof (seasonal_term_bounds 0.15 i ltac:(lra)).
  pose proof (seasonal_term_bounds 0.05 i ltac:(lra)).
  pose proof (seasonal_term_bounds 0.02 i ltac:(lra)).
  repeat split; lra.
Qed.

(** C9, amended. For a positive day count, every record has an order
    volume of at least -50 (smaller than 50 only by the sine term); it is
    non-negative, indeed at least 50, on the first 183 days (index at most
    182), where the sine term is non-negative. *)
Theorem C9_order_volume_lower_bound (now : datetime) (days : Z) (s : rng) :
  (0 < days)%Z ->
  exists df s',
    generate_fake_data now days s = Return (df, s')
    /\ forall i r, iloc df i = Some r ->
         - 50 <= order_volume r
         /\ ((i <= 182)%nat -> 0 <= order_volume r /\ 50 <= order_volume r).
Proof.
  intros Hdays.
  destruct (generated_rows_in_range now days s Hdays)
    as (df & s' & d & E & Hd & Hrow & Hnone).
  exists df, s'. split; [ exact E | ].
  intros i r Hr.
  destruct (Nat.lt_ge_cases i (Z.to_nat days)) as [Hi | Hi];
    [ | rewrite (Hnone i Hi) in Hr; discriminate ].
  destruct (Hrow i Hi) as (Hrec & _ & _ & _ & _ & _ & H7).
  rewrite Hrec in Hr. injection Hr as <-.
  cbn [spec_record order_volume].
  assert (Hn : 50 <= IZR (nth i (n_order d) 0%Z)) by (apply IZR_le; lia).
  pose proof (seasonal_term_bounds 100 i ltac:(lra)).
  split; [ lra | ].
  intros Hhalf. pose proof (seasonal_first_half i Hhalf). lra.
Qed.

End GeneratorClaims.

(** ** Concrete runs: counterexamples and instances *)

Section ConcreteRuns.
Import Generator.

Lemma Rsum_firstn_repeat (x : R) (n i : nat) :
  (i <= n)%nat -> Rsum (firstn i (repeat x n)) = INR i * x.
Proof.
  revert n. induction i as [ | i IH]; intros n Hi.
  - simpl. lra.
  - destruct n as [ | n]; [ lia | ].
    change (x + Rsum (firstn i (repeat x n)) = INR (S i) * x).
    rewrite IH by lia. rewrite S_INR. lra.
Qed.

(** With the day count 0 the generator returns the empty table. *)
Example zero_days_run :
  exists s', @generate_fake_data (constant_state 0) clock 0 tt
             = Return (empty_table, s').
Proof. apply (@generate_fake_data_zero (constant_state 0)). Qed.

(** With every normal deviate at -8 the drift of the default run reaches
    -29.2 on its last day, and the labor rate -9.2. *)
Example drifting_run_last_labor_rate :
  exists df r,
    @generate_fake_data_default (constant_state (-8)) clock tt = Return (df, tt)
    /\ iloc df 364 = Some r
    /\ labor_rate r = - 9.2.
Proof.
  destruct (constant_state_row (-8) clock 365 364 ltac:(lia)) as (df & E & Hrow).
  exists df. eexists. split; [ exact E | ]. split; [ exact Hrow | ].
  cbn [labor_rate]. rewrite Rsum_firstn_repeat by lia.
  replace (INR 365) with 365 by (rewrite INR_IZR_INZ; reflexivity). lra.
Qed.

(** With every integer draw at 50 the order volume of day index 273 of the
    default run is negative. *)
Example low_draw_run_order_volume :
  exists df r,
    @generate_fake_data_default (constant_state 0) clock tt = Return (df, tt)
    /\ iloc df 273 = Some r
    /\ order_volume r < 0.
Proof.
  destruct (constant_state_row 0 clock 365 273 ltac:(lia)) as (df & E & Hrow).
  exists df. eexists. split; [ exact E | ]. split; [ exact Hrow | ].
  cbn [order_volume]. pose proof seasonal_day_273. lra.
Qed.

(** C3 as stated fails: the day count 0 is not rejected. *)
Lemma C3_counterexample :
  ~ (forall (RS : RandomState) (now : datetime) (days : Z) (s : rng),
        (days <= 0)%Z -> raises (generate_fake_data now days s)).
Proof.
  intros H.
  destruct (H (constant_state 0) clock 0%Z tt ltac:(lia)) as [e He].
  destruct zero_days_run as [s' E]. rewrite E in He. discriminate.
Qed.

(** C8 as stated fails: the labor rate of a record can be negative. *)
Lemma C8_counterexample :
  ~ (forall (RS : RandomState) (now : datetime) (days : Z) (s s' : rng)
            (df : DataFrame) (i : nat) (r : MetricRecord),
        (0 < days)%Z ->
        generate_fake_data now days s = Return (df, s') ->
        iloc df i = Some r ->
        0 < steel_cost r /\ 0 < aluminum_cost r /\ 0 < fiberglass_cost r
        /\ 0 < electricity_cost r /\ 0 < labor_rate r).
Proof.
  intros H.
  destruct drifting_run_last_labor_rate as (df & r & E & Hrow & Hlab).
  destruct (H (constant_state (-8)) clock 365%Z tt tt df 364%nat r
              ltac:(lia) E Hrow) as (_ & _ & _ & _ & Hpos).
  lra.
Qed.

(** C9 as stated fails: the order volume of a record can be negative. *)
Lemma C9_counterexample :
  ~ (forall (RS : RandomState) (now : datetime) (days : Z) (s s' : rng)
            (df : DataFrame) (i : nat) (r : MetricRecord),
        (0 < days)%Z ->
        generate_fake_data now days s = Return (df, s') ->
        iloc df i = Some r ->
        0 <= order_volume r).
Proof.
  intros H.
  destruct low_draw_run_order_volume as (df & r & E & Hrow & Hneg).
  pose proof (H (constant_state 0) clock 365%Z tt tt df 273%nat r
                ltac:(lia) E Hrow) as Hpos.
  lra.
Qed.

(** Instances of the generator's theorems: the default run of 365 days
    from the constant state. *)

Lemma C4_witness :
  (0 < 365)%Z
  /\ exists df s',
    @generate_fake_data (constant_state 0) clock 365 tt = Return (df, s')
    /\ nrows df = Z.to_nat 365
    /\ (forall i, (exists r, iloc df i = Some r) <-> (i < Z.to_nat 365)%nat)
    /\ (forall i r, iloc df i = Some r ->
                    nth_error (Date df) i = Some (date r)
                    /\ date r = (clock - timedelta_days (365 - 1 - Z.of_nat i))%Z)
    /\ (forall i j ri rj,
          iloc df i = Some ri -> iloc df j = Some rj -> (i < j)%nat ->
          (date ri < date rj)%Z)
    /\ (forall i ri rj,
          iloc df i = Some ri -> iloc df (S i) = Some rj ->
          date rj = (date ri + timedelta_days 1)%Z
          /\ calendar_date (date rj) = (calendar_date (date ri) + 1)%Z)
    /\ (exists r, iloc df (Z.to_nat 365 - 1) = Some r /\ date r = clock).
Proof.
  split; [ lia | ].
  apply (@C4_dates_contiguous (constant_state 0) clock 365 tt). lia.
Defined.

Lemma C5_witness :
  (0 < 365)%Z
  /\ exists df s' d,
    @generate_fake_data (constant_state 0) clock 365 tt = Return (df, s')
    /\ d = fst (@run_draws (constant_state 0) (Z.to_nat 365) tt)
    /\ forall i, (i < Z.to_nat 365)%nat ->
         iloc df i = Some (spec_record clock 365 d i)
         /\ 0.5 <= nth i (u_steel d) 0 <= 1.0
         /\ 1.0 <= nth i (u_aluminum d) 0 <= 1.5
         /\ 0.3 <= nth i (u_fiberglass d) 0 <= 0.6
         /\ 0.1 <= nth i (u_electricity d) 0 <= 0.2
         /\ 20 <= nth i (b_labor d) 0 <= 30
         /\ (50 <= nth i (n_order d) 0 < 500)%Z.
Proof.
  split; [ lia | ].
  apply (@C5_record_formulas (constant_state 0) clock 365 tt). lia.
Defined.

Lemma C8_witness :
  (0 < 365)%Z
  /\ exists df s' d,
    @generate_fake_data (constant_state 0) clock 365 tt = Return (df, s')
    /\ d = fst (@run_draws (constant_state 0) (Z.to_nat 365) tt)
    /\ forall i r, iloc df i = Some r ->
         (0 < steel_cost r /\ 0 < aluminum_cost r
          /\ 0 < fiberglass_cost r /\ 0 < electricity_cost r)
         /\ (0.4 <= steel_cost r /\ 0.85 <= aluminum_cost r
             /\ 0.25 <= fiberglass_cost r /\ 0.08 <= electricity_cost r)
         /\ 20 + Rsum (firstn (S i) (e_labor d)) <= labor_rate r
            < 30 + Rsum (firstn (S i) (e_labor d))
         /\ (- 20 < Rsum (firstn (S i) (e_labor d)) -> 0 < labor_rate r).
Proof.
  split; [ lia | ].
  apply (@C8_costs_positive (constant_state 0) clock 365 tt). lia.
Defined.

Lemma C9_witness :
  (0 < 365)%Z
  /\ exists df s',
    @generate_fake_data (constant_state 0) clock 365 tt = Return (df, s')
    /\ forall i r, iloc df i = Some r ->
         - 50 <= order_volume r
         /\ ((i <= 182)%nat -> 0 <= order_volume r /\ 50 <= order_volume r).
Proof.
  split; [ lia | ].
  apply (@C9_order_volume_lower_bound (constant_state 0) clock 365 tt). lia.
Defined.

End ConcreteRuns.

(** ** Properties of the dashboard's computations *)

Section DashboardFacts.
Import Pricing Generator Dashboard.

Lemma np_true_divide_nonzero (x y : R) :
  y <> 0 -> np_true_divide x y = np_finite (x / y).
Proof.
  intros Hy. unfold np_true_divide.
  destruct (Req_dec_T y 0) as [E | _]; [ contradiction | reflexivity ].
Qed.

Lemma calculate_price_numpy_value (c m vd : R) :
  m <> 1 -> calculate_price_numpy c m vd = np_finite (c / (1 - m) * (1 - vd)).
Proof.
  intros Hm. unfold calculate_price_numpy.
  rewrite np_true_divide_nonzero by lra. reflexivity.
Qed.

(** X1. Scalar and NumPy operands. With a margin different from 1 the two
    evaluations of [calculate_price] give the same number.  At margin 1 the
    scalar call raises [ZeroDivisionError], whereas the NumPy call (the
    one [main] makes) raises nothing: without discount it returns inf, -inf
    or nan as the base cost is positive, negative or zero. *)
Theorem X1_numpy_operands (c m vd : R) :
  (m <> 1 ->
     exists p, calculate_price c m vd = Return p
               /\ calculate_price_numpy c m vd = np_finite p)
  /\ (m = 1 ->
        calculate_price c m vd = Raise ZeroDivisionError
        /\ (0 < c -> calculate_price_numpy c m 0 = np_inf)
        /\ (c < 0 -> calculate_price_numpy c m 0 = np_neg_inf)
        /\ (c = 0 -> calculate_price_numpy c m 0 = np_nan)).
Proof.
  split.
  - intros Hm. exists (c / (1 - m) * (1 - vd)). split.
    + now apply calculate_price_value.
    + now apply calculate_price_numpy_value.
  - intros ->. split; [ apply calculate_price_margin_one | ].
    unfold calculate_price_numpy, np_true_divide.
    destruct (Req_dec_T (1 - 1) 0) as [_ | N]; [ | exfalso; apply N; lra ].
    repeat split; intros Hc.
    + destruct (Rlt_dec 0 c) as [_ | N]; [ | contradiction ].
      simpl. destruct (Rlt_dec 0 (1 - 0)) as [_ | N]; [ reflexivity | exfalso; lra ].
    + destruct (Rlt_dec 0 c) as [P | _]; [ exfalso; lra | ].
      destruct (Rlt_dec c 0) as [_ | N]; [ | contradiction ].
      simpl. destruct (Rlt_dec 0 (1 - 0)) as [_ | N]; [ reflexivity | exfalso; lra ].
    + destruct (Rlt_dec 0 c) as [P | _]; [ exfalso; lra | ].
      destruct (Rlt_dec c 0) as [P | _]; [ exfalso; lra | reflexivity ].
Qed.

(** Samples of [np.linspace]. *)

Lemma np_linspace_unfold (start stop : R) (k : nat) :
  np_linspace start stop (S (S k))
  = map (fun i => INR i * ((stop - start) / INR (S k)) + start) (seq 0 (S k))
    ++ [stop].
Proof.
  unfold np_linspace.
  replace (S (S k) - 1)%nat with (S k) by lia.
  change (Nat.eqb (S k) 0) with false. change (1 <? S (S k))%nat with true.
  cbv beta iota zeta.
  rewrite (seq_S (S k) 0), map_app. simpl (map _ [_]).
  now rewrite removelast_last.
Qed.

Lemma np_linspace_length (start stop : R) (num : nat) :
  length (np_linspace start stop num) = num.
Proof.
  destruct num as [ | [ | k]]; try reflexivity.
  rewrite np_linspace_unfold, length_app, length_map, length_seq. simpl. lia.
Qed.

Lemma np_linspace_nth (start stop : R) (num i : nat) :
  (2 <= num)%nat -> (i < num)%nat ->
  nth_error (np_linspace start stop num) i
  = Some (start + INR i * ((stop - start) / INR (num - 1))).
Proof.
  intros Hnum Hi. destruct num as [ | [ | k]]; try lia.
  rewrite np_linspace_unfold.
  replace (S (S k) - 1)%nat with (S k) by lia.
  assert (Hk : INR (S k) <> 0) by (apply not_0_INR; lia).
  destruct (Nat.lt_ge_cases i (S k)) as [Hlt | Hge].
  - rewrite nth_error_app1 by (rewrite length_map, length_seq; exact Hlt).
    rewrite nth_error_map, nth_error_seq.
    destruct (Nat.ltb_spec i (S k)) as [_ | Hbad]; [ | lia ].
    simpl. f_equal. lra.
  - assert (i = S k) by lia. subst i.
    rewrite nth_error_app2 by (rewrite length_map, length_seq; lia).
    rewrite length_map, length_seq, Nat.sub_diag. simpl nth_error.
    f_equal. field. exact Hk.
Qed.

Lemma margin_range_nth (i : nat) :
  (i < 100)%nat ->
  nth_error margin_range i = Some (0.1 + INR i * (0.4 / 99)).
Proof.
  intros Hi. unfold margin_range.
  rewrite np_linspace_nth by lia. f_equal.
  replace (INR (100 - 1)) with 99 by (rewrite INR_IZR_INZ; reflexivity).
  lra.
Qed.

Lemma margin_range_bounds (i : nat) :
  (i < 100)%nat -> 0.1 <= 0.1 + INR i * (0.4 / 99) <= 0.5.
Proof.
  intros Hi.
  assert (Hr : 0 <= INR i <= 99).
  { split; [ apply pos_INR | ].
    replace 99 with (INR 99) by (rewrite INR_IZR_INZ; reflexivity).
    apply le_INR. lia. }
  lra.
Qed.

(** X2. The margin sweep of the price-sensitivity chart. [margin_range]
    holds 100 margins from 0.1 to 0.5, in strictly increasing order; for a
    positive base cost the sweep gives 100 finite prices (no division by
    zero), strictly increasing along the sweep, from [base_cost / 0.9] to
    [base_cost / 0.5]. *)
Theorem X2_margin_sweep (base_cost : R) :
  0 < base_cost ->
  length margin_range = 100%nat
  /\ nth_error margin_range 0 = Some 0.1
  /\ nth_error margin_range 99 = Some 0.5
  /\ exists ps : list R,
       prices base_cost = map np_finite ps
       /\ length ps = 100%nat
       /\ nth_error ps 0 = Some (base_cost / 0.9)
       /\ nth_error ps 99 = Some (base_cost / 0.5)
       /\ (forall i j mi mj pi pj,
             (i < j)%nat ->
             nth_error margin_range i = Some mi ->
             nth_error margin_range j = Some mj ->
             nth_error ps i = Some pi -> nth_error ps j = Some pj ->
             mi < mj /\ pi < pj).
Proof.
  intros Hc.
  assert (H99 : INR 99 = 99) by (rewrite INR_IZR_INZ; reflexivity).
  split; [ apply np_linspace_length | ].
  split; [ rewrite margin_range_nth by lia; f_equal; simpl; lra | ].
  split; [ rewrite margin_range_nth by lia; f_equal; rewrite H99; lra | ].
  exists (map (fun m => base_cost / (1 - m) * (1 - 0)) margin_range).
  assert (Hps : forall i, (i < 100)%nat ->
            nth_error (map (fun m => base_cost / (1 - m) * (1 - 0)) margin_range) i
            = Some (base_cost / (1 - (0.1 + INR i * (0.4 / 99))) * (1 - 0))).
  { intros i Hi. now rewrite nth_error_map, margin_range_nth. }
  split; [ | split; [ | split; [ | split ] ] ].
  - unfold prices. rewrite map_map. apply map_ext_in.
    intros m Hm. apply calculate_price_numpy_value.
    apply In_nth_error in Hm. destruct Hm as [i Hi].
    assert (Hlt : (i < 100)%nat).
    { rewrite <- (np_linspace_length 0.1 0.5 100).
      apply nth_error_Some. unfold margin_range in Hi. congruence. }
    rewrite (margin_range_nth i Hlt) in Hi. injection Hi as <-.
    pose proof (margin_range_bounds i Hlt). lra.
  - rewrite length_map. apply np_linspace_length.
  - rewrite Hps by lia. apply f_equal. simpl INR.
    replace (1 - (0.1 + 0 * (0.4 / 99))) with 0.9 by lra. lra.
  - rewrite Hps by lia. apply f_equal. rewrite H99.
    replace (1 - (0.1 + 99 * (0.4 / 99))) with 0.5 by lra. lra.
  - intros i j mi mj pi pj Hij Hmi Hmj Hpi Hpj.
    assert (Hj : (j < 100)%nat).
    { rewrite <- (np_linspace_length 0.1 0.5 100).
      apply nth_error_Some. unfold margin_range in Hmj. congruence. }
    rewrite margin_range_nth in Hmi, Hmj by lia.
    rewrite Hps in Hpi, Hpj by lia.
    injection Hmi as <-. injection Hmj as <-.
    injection Hpi as <-. injection Hpj as <-.
    pose proof (margin_range_bounds i ltac:(lia)).
    pose proof (margin_range_bounds j Hj).
    assert (Hlt : INR i < INR j) by (apply lt_INR; exact Hij).
    assert (Hm : 0.1 + INR i * (0.4 / 99) < 0.1 + INR j * (0.4 / 99)) by lra.
    split; [ exact Hm | ].
    apply Rmult_lt_compat_r; [ lra | ].
    apply quotient_lt_margin; lra.
Qed.

Lemma X2_witness :
  0 < 20
  /\ exists ps : list R,
       prices 20 = map np_finite ps
       /\ nth_error ps 0 = Some (20 / 0.9)
       /\ nth_error ps 99 = Some (20 / 0.5).
Proof.
  split; [ lra | ].
  destruct (X2_margin_sweep 20 ltac:(lra))
    as (_ & _ & _ & ps & Hps & _ & H0 & H99 & _).
  exists ps. repeat split; assumption.
Defined.

(** X3. The market-position notice. The price is reported competitive
    exactly when it is below both competitor prices, too high exactly when
    it is above both, and within range otherwise; the notice does not depend
    on the order of the two competitors; and with the competitor prices left
    at their defaults (90% and 110% of the price) the notice is always
    "within the competitive range". *)
Theorem X3_market_position (price competitor1 competitor2 : R) :
  (market_position price competitor1 competitor2 = success
     <-> price < competitor1 /\ price < competitor2)
  /\ (market_position price competitor1 competitor2 = warning
     <-> competitor1 < price /\ competitor2 < price)
  /\ (market_position price competitor1 competitor2 = info
     <-> Rmin competitor1 competitor2 <= price <= Rmax competitor1 competitor2)
  /\ market_position price competitor1 competitor2
     = market_position price competitor2 competitor1
  /\ market_position price (price * 0.9) (price * 1.1) = info.
Proof.
  assert (Hchar : forall p c1 c2,
            (market_position p c1 c2 = success <-> p < c1 /\ p < c2)
            /\ (market_position p c1 c2 = warning <-> c1 < p /\ c2 < p)
            /\ (market_position p c1 c2 = info
                <-> Rmin c1 c2 <= p <= Rmax c1 c2)).
  { intros p c1 c2. unfold market_position.
    destruct (Rlt_dec p (Rmin c1 c2)) as [Hlo | Hlo];
      [ | destruct (Rgt_dec p (Rmax c1 c2)) as [Hhi | Hhi]; unfold Rgt in Hhi ];
      revert Hlo; try revert Hhi;
      unfold Rmin, Rmax; destruct (Rle_dec c1 c2); intros;
      (split; [ | split ]); split; intros H;
      try discriminate; try reflexivity; try lra. }
  destruct (Hchar price competitor1 competitor2) as (Hs & Hw & Hi).
  split; [ exact Hs | ]. split; [ exact Hw | ]. split; [ exact Hi | ].
  split.
  - unfold market_position.
    now rewrite (Rmin_comm competitor2 competitor1), (Rmax_comm competitor2 competitor1).
  - destruct (Hchar price (price * 0.9) (price * 1.1)) as (_ & _ & Hd).
    apply Hd. unfold Rmin, Rmax.
    destruct (Rle_dec (price * 0.9) (price * 1.1)); lra.
Qed.

(** Sums and means of bounded lists. *)

Lemma Rsum_bounds (a b : R) (xs : list R) :
  Forall (fun x => a <= x <= b) xs ->
  INR (length xs) * a <= Rsum xs <= INR (length xs) * b.
Proof.
  induction 1 as [ | x xs Hx _ IH].
  - simpl. lra.
  - change (length (x :: xs)) with (S (length xs)).
    change (Rsum (x :: xs)) with (x + Rsum xs).
    rewrite S_INR. lra.
Qed.

Lemma mean_bounds (a b : R) (xs : list R) :
  xs <> [] -> Forall (fun x => a <= x <= b) xs ->
  a <= Rsum xs / INR (length xs) <= b.
Proof.
  intros Hne HF. pose proof (Rsum_bounds a b xs HF) as [Hlo Hhi].
  assert (Hn : 0 < INR (length xs)).
  { apply lt_0_INR. destruct xs; [ contradiction | simpl; lia ]. }
  split.
  - apply Rmult_le_reg_r with (INR (length xs)); [ exact Hn | ].
    unfold Rdiv. rewrite Rmult_assoc, Rinv_l, Rmult_1_r by lra. lra.
  - apply Rmult_le_reg_r with (INR (length xs)); [ exact Hn | ].
    unfold Rdiv. rewrite Rmult_assoc, Rinv_l, Rmult_1_r by lra. lra.
Qed.

Lemma Series_mean_bounds (a b : R) (xs : list R) :
  xs <> [] -> Forall (fun x => a <= x <= b) xs ->
  exists m, Series_mean xs = np_finite m /\ a <= m <= b.
Proof.
  intros Hne HF. exists (Rsum xs / INR (length xs)). split.
  - destruct xs; [ contradiction | reflexivity ].
  - now apply mean_bounds.
Qed.

(** X4. The product price. For a table with at least one row and no
    negative labor rate, and widget values within the widgets' bounds, the
    base cost is at least 5.5 and the price is finite (no division by
    zero): it is [base_cost / (1 - target_margin)], it lies between
    [base_cost / 0.9] and twice the base cost, and it is the same whatever
    the Volume Discount slider says. *)
Theorem X4_product_price (df : DataFrame) (w : Widgets) :
  Labor_Rate df <> [] ->
  Forall (fun x => 0 <= x) (Labor_Rate df) ->
  within_bounds w ->
  exists mu c p,
    Series_mean (Labor_Rate df) = np_finite mu
    /\ base_cost df w = np_finite c
    /\ price df w = np_finite p
    /\ c = material_cost w + labor_hours w * mu + overhead_cost w
    /\ 5.5 <= c
    /\ p = c / (1 - target_margin w)
    /\ c / 0.9 <= p <= 2 * c
    /\ forall vd,
         price df {| target_margin := target_margin w; volume_discount := vd;
                     material_cost := material_cost w;
                     labor_hours := labor_hours w;
                     overhead_cost := overhead_cost w |}
         = np_finite p.
Proof.
  intros Hne Hpos (Hm & _ & Hmat & Hlab & Hov).
  assert (Hmu : 0 <= Rsum (Labor_Rate df) / INR (length (Labor_Rate df))).
  { unfold Rdiv. apply Rmult_le_pos.
    - clear Hne. induction Hpos as [ | x xs Hx _ IH]; simpl; lra.
    - left. apply Rinv_0_lt_compat, lt_0_INR.
      destruct (Labor_Rate df); [ contradiction | simpl; lia ]. }
  set (mu := Rsum (Labor_Rate df) / INR (length (Labor_Rate df))) in *.
  set (c := material_cost w + labor_hours w * mu + overhead_cost w).
  assert (Emean : Series_mean (Labor_Rate df) = np_finite mu).
  { unfold Series_mean, mu. destruct (Labor_Rate df); [ contradiction | reflexivity ]. }
  assert (Ecost : forall w', material_cost w' = material_cost w ->
                    labor_hours w' = labor_hours w ->
                    overhead_cost w' = overhead_cost w ->
                    target_margin w' = target_margin w ->
                    price df w' = np_finite (c / (1 - target_margin w) * (1 - 0))).
  { intros w' E1 E2 E3 E4. unfold price, base_cost.
    rewrite Emean, E1, E2, E3, E4. apply calculate_price_numpy_value. lra. }
  assert (Hc : 5.5 <= c) by (unfold c; nra).
  assert (Hinv : 0 < / (1 - target_margin w)) by (apply Rinv_0_lt_compat; lra).
  exists mu, c, (c / (1 - target_margin w) * (1 - 0)).
  split; [ exact Emean | ].
  split; [ unfold base_cost; now rewrite Emean | ].
  split; [ now apply Ecost | ].
  split; [ reflexivity | ]. split; [ exact Hc | ].
  split; [ unfold Rdiv; ring | ].
  split.
  - replace (c / (1 - target_margin w) * (1 - 0))
      with (c * / (1 - target_margin w)) by (field; lra).
    assert (H1 : / 0.9 <= / (1 - target_margin w))
      by (apply Rinv_le_contravar; lra).
    assert (H2 : / (1 - target_margin w) <= / 0.5)
      by (apply Rinv_le_contravar; lra).
    replace (/ 0.5) with 2 in H2 by lra.
    unfold Rdiv. split; nra.
  - intros vd. now apply Ecost.
Qed.

Lemma X4_witness :
  exists mu c p,
    Series_mean (Labor_Rate one_row_table) = np_finite mu
    /\ base_cost one_row_table initial_widgets = np_finite c
    /\ price one_row_table initial_widgets = np_finite p
    /\ c = material_cost initial_widgets + labor_hours initial_widgets * mu
           + overhead_cost initial_widgets
    /\ 5.5 <= c
    /\ p = c / (1 - target_margin initial_widgets)
    /\ c / 0.9 <= p <= 2 * c
    /\ forall vd,
         price one_row_table
               {| target_margin := target_margin initial_widgets;
                  volume_discount := vd;
                  material_cost := material_cost initial_widgets;
                  labor_hours := labor_hours initial_widgets;
                  overhead_cost := overhead_cost initial_widgets |}
         = np_finite p.
Proof.
  apply (X4_product_price one_row_table initial_widgets).
  - discriminate.
  - constructor; [ simpl; lra | constructor ].
  - unfold within_bounds, initial_widgets; simpl; lra.
Defined.

End DashboardFacts.

(** ** The dashboard on a generated table *)

Section GeneratedTable.
Import Pricing Generator Dashboard.
Context {RS : RandomState}.

Lemma Forall_zip_with (P Q S : R -> Prop) (xs ys : list R) :
  (forall x y, P x -> Q y -> S (x + y)) ->
  Forall P xs -> Forall Q ys -> Forall S (zip_with Rplus xs ys).
Proof.
  intros HS HP. revert ys. induction HP as [ | x xs Hx _ IH]; intros ys HQ.
  - constructor.
  - destruct HQ as [ | y ys Hy HQ]; simpl; constructor; auto.
Qed.

Lemma seasonal_column_bounds (days : Z) (a : R) :
  0 <= a -> Forall (fun t => - a <= t <= a) (seasonal days a).
Proof.
  intros Ha. unfold seasonal. apply Forall_map, Forall_forall. intros i _.
  pose proof (SIN_bound (IZR i * 2 * PI / 365)) as [Hlo Hhi]. nra.
Qed.

(** The ranges of the columns of a generated table. *)
Lemma generated_columns (now : datetime) (days : Z) (s : rng) :
  (0 < days)%Z ->
  exists df s',
    generate_fake_data now days s = Return (df, s')
    /\ Forall (fun x => 0.4 <= x <= 1.1) (Steel_Cost df)
    /\ Forall (fun x => 0.08 <= x <= 0.22) (Electricity_Cost df)
    /\ Forall (fun x => - 50 <= x <= 599) (Order_Volume df)
    /\ length (Steel_Cost df) = Z.to_nat days
    /\ length (Labor_Rate df) = Z.to_nat days
    /\ length (Electricity_Cost df) = Z.to_nat days
    /\ length (Order_Volume df) = Z.to_nat days.
Proof.
  intros Hdays.
  destruct (generated_rows now days s ltac:(lia))
    as (df & s' & d & E & _ & Hdf & Hsup & _).
  exists df, s'. split; [ exact E | ].
  destruct Hsup as ((L1 & F1) & _ & _ & (L4 & _) & L5 & (L6 & F6) & (L7 & F7)).
  rewrite Hdf. cbn [assemble Steel_Cost Labor_Rate Electricity_Cost Order_Volume].
  repeat split.
  - eapply Forall_zip_with;
      [ | exact F1 | apply (seasonal_column_bounds days 0.1); lra ];
      cbv beta; intros x y Hx Hy; lra.
  - eapply Forall_zip_with;
      [ | exact F6 | apply (seasonal_column_bounds days 0.02); lra ];
      cbv beta; intros x y Hx Hy; lra.
  - eapply Forall_zip_with with (P := fun u => 50 <= u <= 499);
      [ | | apply (seasonal_column_bounds days 100); lra ];
      [ cbv beta; intros x y Hx Hy; lra | ].
    apply Forall_map. eapply Forall_impl; [ | exact F7 ].
    intros k Hk. cbv beta in *. split; apply IZR_le; lia.
  - rewrite zip_with_length; rewrite ?seasonal_length; congruence.
  - rewrite zip_with_length; rewrite ?np_cumsum_length; congruence.
  - rewrite zip_with_length; rewrite ?seasonal_length; congruence.
  - rewrite zip_with_length; rewrite ?length_map, ?seasonal_length; congruence.
Qed.

(** X5. The range of every metric. For a positive day count, every
    generated record has its steel cost in [0.4, 1.1), its aluminum cost in
    [0.85, 1.65), its fiberglass cost in [0.25, 0.65), its electricity cost
    in [0.08, 0.22) and its order volume in [-50, 599]. *)
Theorem X5_metric_ranges (now : datetime) (days : Z) (s : rng) :
  (0 < days)%Z ->
  exists df s',
    generate_fake_data now days s = Return (df, s')
    /\ forall i r, iloc df i = Some r ->
         0.4 <= steel_cost r < 1.1
         /\ 0.85 <= aluminum_cost r < 1.65
         /\ 0.25 <= fiberglass_cost r < 0.65
         /\ 0.08 <= electricity_cost r < 0.22
         /\ - 50 <= order_volume r <= 599.
Proof.
  intros Hdays.
  destruct (generated_rows_in_range now days s Hdays)
    as (df & s' & d & E & _ & Hrow & Hnone).
  exists df, s'. split; [ exact E | ].
  intros i r Hr.
  destruct (Nat.lt_ge_cases i (Z.to_nat days)) as [Hi | Hi];
    [ | rewrite (Hnone i Hi) in Hr; discriminate ].
  destruct (Hrow i Hi) as (Hrec & H1 & H2 & H3 & H6 & _ & H7).
  rewrite Hrec in Hr. injection Hr as <-.
  cbn [spec_record steel_cost aluminum_cost fiberglass_cost electricity_cost
       order_volume].
  pose proof (seasonal_term_bounds 0.1 i ltac:(lra)).
  pose proof (seasonal_term_bounds 0.15 i ltac:(lra)).
  pose proof (seasonal_term_bounds 0.05 i ltac:(lra)).
  pose proof (seasonal_term_bounds 0.02 i ltac:(lra)).
  pose proof (seasonal_term_bounds 100 i ltac:(lra)).
  assert (Hn : 50 <= IZR (nth i (n_order d) 0%Z) <= 499)
    by (split; apply IZR_le; lia).
  repeat split; lra.
Qed.

(** X6. The headline averages of the market overview. For a positive day
    count the three averages are numbers, not nan; the average steel cost
    lies in [0.4, 1.1] and the average electricity cost in [0.08, 0.22]. *)
Theorem X6_headline_averages (now : datetime) (days : Z) (s : rng) :
  (0 < days)%Z ->
  exists df s' steel labor electricity,
    generate_fake_data now days s = Return (df, s')
    /\ Series_mean (Steel_Cost df) = np_finite steel
    /\ Series_mean (Labor_Rate df) = np_finite labor
    /\ Series_mean (Electricity_Cost df) = np_finite electricity
    /\ 0.4 <= steel <= 1.1
    /\ 0.08 <= electricity <= 0.22.
Proof.
  intros Hdays.
  destruct (generated_columns now days s Hdays)
    as (df & s' & E & Fst & Fel & _ & Lst & Llb & Lel & _).
  assert (Hne : forall xs : list R, length xs = Z.to_nat days -> xs <> []).
  { intros xs Hlen ->. simpl in Hlen. lia. }
  destruct (Series_mean_bounds _ _ _ (Hne _ Lst) Fst) as (steel & Est & Hst).
  destruct (Series_mean_bounds _ _ _ (Hne _ Lel) Fel) as (el & Eel & Hel).
  exists df, s', steel, (Rsum (Labor_Rate df) / INR (length (Labor_Rate df))), el.
  split; [ exact E | ]. split; [ exact Est | ].
  split; [ | split; [ exact Eel | split; assumption ] ].
  unfold Series_mean. pose proof (Hne _ Llb) as Hlb.
  destruct (Labor_Rate df); [ contradiction | reflexivity ].
Qed.

(** X7. The sign of the seasonal term,
    [np.sin(np.arange(days) * 2 * np.pi / 365) * amplitude], for a positive
    amplitude: it vanishes on day 0, is positive on days 1 to 182 and
    negative on days 183 to 364.  So within a year every seasonal metric
    lies above its random draw in the first half and below it in the
    second. *)
Theorem X7_seasonal_sign (days : Z) (amplitude : R) :
  0 < amplitude ->
  ((0 < days)%Z -> nth_error (seasonal days amplitude) 0 = Some 0)
  /\ (forall i t, nth_error (seasonal days amplitude) i = Some t ->
        ((1 <= i <= 182)%nat -> 0 < t)
        /\ ((183 <= i <= 364)%nat -> t < 0)).
Proof.
  intros Ha. pose proof PI_RGT_0 as Hpi. split.
  - intros Hdays. rewrite seasonal_nth by lia. f_equal.
    simpl INR. replace (0 * 2 * PI / 365) with 0 by (unfold Rdiv; ring).
    rewrite sin_0. ring.
  - intros i t Ht.
    assert (Hi : (i < Z.to_nat days)%nat).
    { rewrite <- (seasonal_length days amplitude).
      apply nth_error_Some. congruence. }
    rewrite (seasonal_nth days amplitude i Hi) in Ht. injection Ht as <-.
    rewrite seasonal_angle.
    assert (Hbound : forall lo hi : nat,
              (lo <= i <= hi)%nat -> INR lo <= INR i <= INR hi)
      by (intros lo hi [H1 H2]; split; apply le_INR; assumption).
    split.
    + intros Hrange. apply Hbound in Hrange.
      replace (INR 1) with 1 in Hrange by (rewrite INR_IZR_INZ; reflexivity).
      replace (INR 182) with 182 in Hrange by (rewrite INR_IZR_INZ; reflexivity).
      apply Rmult_lt_0_compat; [ | exact Ha ].
      apply sin_gt_0.
      * unfold Rdiv. apply Rmult_lt_0_compat; [ nra | lra ].
      * apply Rmult_lt_reg_r with 365; [ lra | ].
        unfold Rdiv. rewrite Rmult_assoc, Rinv_l, Rmult_1_r by lra. nra.
    + intros Hrange. apply Hbound in Hrange.
      replace (INR 183) with 183 in Hrange by (rewrite INR_IZR_INZ; reflexivity).
      replace (INR 364) with 364 in Hrange by (rewrite INR_IZR_INZ; reflexivity).
      assert (Hsin : sin (2 * PI * INR i / 365) < 0).
      { apply sin_lt_0.
        - apply Rmult_lt_reg_r with 365; [ lra | ].
          unfold Rdiv. rewrite Rmult_assoc, Rinv_l, Rmult_1_r by lra. nra.
        - apply Rmult_lt_reg_r with 365; [ lra | ].
          unfold Rdiv. rewrite Rmult_assoc, Rinv_l, Rmult_1_r by lra. nra. }
      nra.
Qed.

(** The latest date of a column. *)

Lemma fold_left_max_spec (ds : list datetime) (d : datetime) :
  In (fold_left Z.max ds d) (d :: ds)
  /\ Forall (fun x => (x <= fold_left Z.max ds d)%Z) (d :: ds).
Proof.
  revert d. induction ds as [ | x ds IH]; intros d; simpl.
  - split; [ now left | constructor; [ lia | constructor ] ].
  - destruct (IH (Z.max d x)) as [Hin Hall].
    inversion Hall as [ | ? ? Hhd Htl ]; subst. split.
    + destruct Hin as [E | Hin]; [ | now right; right ].
      rewrite <- E. destruct (Z.max_spec d x) as [[_ ->] | [_ ->]];
        [ right; now left | now left ].
    + constructor; [ lia | constructor; [ lia | exact Htl ] ].
Qed.

Lemma window_Date_max (now : datetime) (days : Z) :
  (0 < days)%Z ->
  Date_max (date_range (now - timedelta_days (days - 1))%Z now) = Some now.
Proof.
  intros Hdays.
  set (ds := date_range (now - timedelta_days (days - 1))%Z now).
  assert (Hlen : length ds = Z.to_nat days)
    by (apply date_range_window_length; lia).
  assert (Hle : forall x, In x ds -> (x <= now)%Z).
  { intros x Hx. apply In_nth_error in Hx. destruct Hx as [i Hi].
    assert (Hlt : (i < Z.to_nat days)%nat).
    { rewrite <- Hlen. apply nth_error_Some. congruence. }
    unfold ds in Hi. rewrite date_range_window_nth in Hi by exact Hlt.
    injection Hi as <-. unfold timedelta_days. pose proof day_positive. nia. }
  assert (Hnow : In now ds).
  { apply nth_error_In with (n := (Z.to_nat days - 1)%nat).
    unfold ds. rewrite date_range_window_nth by lia. apply f_equal.
    unfold timedelta_days.
    replace (days - 1 - Z.of_nat (Z.to_nat days - 1))%Z with 0%Z by lia. lia. }
  destruct ds as [ | d ds']; [ contradiction | ].
  unfold Date_max. apply f_equal.
  destruct (fold_left_max_spec ds' d) as [Hin Hall].
  rewrite Forall_forall in Hall.
  pose proof (Hle _ Hin) as H1. pose proof (Hall _ Hnow) as H2.
  cbv beta in H2. lia.
Qed.

(** X8. The forecast dates. For a positive day count the latest date of
    the generated table is [now], and the forecast covers the 30 days that
    follow: date [k] is [now] plus [k + 1] whole days, so the forecast starts
    exactly one day after the last record and every forecast date is later
    than every date of the table. *)
Theorem X8_future_dates (now : datetime) (days : Z) (s : rng) :
  (0 < days)%Z ->
  exists df s' fs,
    generate_fake_data now days s = Return (df, s')
    /\ Date_max (Date df) = Some now
    /\ future_dates df = Return fs
    /\ length fs = 30%nat
    /\ (forall k, (k < 30)%nat ->
          nth_error fs k = Some (now + timedelta_days (Z.of_nat k + 1))%Z)
    /\ (forall d f, In d (Date df) -> In f fs -> (d < f)%Z).
Proof.
  intros Hdays.
  destruct (generated_rows now days s ltac:(lia))
    as (df & s' & d & E & _ & Hdf & _).
  pose proof (window_Date_max now days Hdays) as Hmax.
  assert (Hnth : forall k, (k < 30)%nat ->
            nth_error (date_range_periods (now + timedelta_days 1)%Z 30) k
            = Some (now + timedelta_days (Z.of_nat k + 1))%Z).
  { intros k Hk. unfold date_range_periods.
    rewrite nth_error_map, nth_error_seq.
    destruct (Nat.ltb_spec k 30) as [_ | Hbad]; [ | lia ].
    cbn [option_map Nat.add]. apply f_equal. unfold timedelta_days. ring. }
  exists df, s', (date_range_periods (now + timedelta_days 1)%Z 30).
  split; [ exact E | ]. rewrite Hdf. cbn [assemble Date].
  split; [ exact Hmax | ].
  split; [ unfold future_dates, assemble; cbn [Date]; now rewrite Hmax | ].
  split; [ unfold date_range_periods; now rewrite length_map, length_seq | ].
  split; [ exact Hnth | ].
  intros x f Hx Hf.
  assert (Hxle : (x <= now)%Z).
  { destruct (date_range (now - timedelta_days (days - 1))%Z now)
      as [ | d0 ds'] eqn:Eds; [ contradiction | ].
    unfold Date_max in Hmax. injection Hmax as Hmax.
    destruct (fold_left_max_spec ds' d0) as [_ Hall].
    rewrite Forall_forall in Hall. specialize (Hall x Hx).
    cbv beta in Hall. lia. }
  apply In_nth_error in Hf. destruct Hf as [k Hk].
  assert (Hlt : (k < 30)%nat).
  { replace 30%nat with (length (date_range_periods (now + timedelta_days 1)%Z 30))
      by (unfold date_range_periods; now rewrite length_map, length_seq).
    apply nth_error_Some. congruence. }
  rewrite (Hnth k Hlt) in Hk. injection Hk as <-.
  unfold timedelta_days. pose proof day_positive. nia.
Qed.

(** Windows of a column. *)

Lemma Forall_window (P : R -> Prop) (w k : nat) (xs : list R) :
  Forall P xs -> Forall P (firstn w (skipn k xs)).
Proof.
  intros HF. rewrite Forall_forall in *. intros x Hx. apply HF.
  rewrite <- (firstn_skipn k xs). apply in_or_app. right.
  rewrite <- (firstn_skipn w (skipn k xs)). apply in_or_app. now left.
Qed.

Lemma window_length (w k : nat) (xs : list R) :
  (k + w <= length xs)%nat -> length (firstn w (skipn k xs)) = w.
Proof. intros H. rewrite length_firstn, length_skipn. lia. Qed.

Lemma rolling_mean_length (w : nat) (xs : list R) :
  length (rolling_mean w xs) = length xs.
Proof. unfold rolling_mean. now rewrite length_map, length_seq. Qed.

Lemma rolling_mean_nth (w : nat) (xs : list R) (i : nat) :
  (i < length xs)%nat ->
  nth_error (rolling_mean w xs) i
  = Some (if (S i <? w)%nat then np_nan
          else np_finite (Rsum (firstn w (skipn (S i - w) xs)) / INR w)).
Proof.
  intros Hi. unfold rolling_mean. rewrite nth_error_map, nth_error_seq.
  destruct (Nat.ltb_spec i (length xs)) as [_ | Hbad]; [ | lia ].
  reflexivity.
Qed.

(** X9. The 30-day moving average of the order volume. For a positive
    day count it has one entry per record; the first 29 entries are nan
    (so a table of fewer than 30 days has no average at all); from day
    index 29 on, the entry is the mean of the 30 order volumes ending at
    that day, and lies in [-50, 599]. *)
Theorem X9_moving_average (now : datetime) (days : Z) (s : rng) :
  (0 < days)%Z ->
  exists df s',
    generate_fake_data now days s = Return (df, s')
    /\ length (moving_average df) = Z.to_nat days
    /\ (forall i, (i < Z.to_nat days)%nat -> (i < 29)%nat ->
          nth_error (moving_average df) i = Some np_nan)
    /\ (forall i, (29 <= i < Z.to_nat days)%nat ->
          exists m,
            nth_error (moving_average df) i = Some (np_finite m)
            /\ m = Rsum (firstn 30 (skipn (i - 29) (Order_Volume df))) / 30
            /\ - 50 <= m <= 599).
Proof.
  intros Hdays.
  destruct (generated_columns now days s Hdays)
    as (df & s' & E & _ & _ & Fov & _ & _ & _ & Lov).
  exists df, s'. split; [ exact E | ].
  unfold moving_average.
  split; [ now rewrite rolling_mean_length | ]. split.
  - intros i Hi Hearly. rewrite rolling_mean_nth by lia.
    destruct (Nat.ltb_spec (S i) 30) as [_ | Hbad]; [ reflexivity | lia ].
  - intros i [Hlo Hhi]. rewrite rolling_mean_nth by lia.
    destruct (Nat.ltb_spec (S i) 30) as [Hbad | _]; [ lia | ].
    replace (S i - 30)%nat with (i - 29)%nat by lia.
    replace (INR 30) with 30 by (rewrite INR_IZR_INZ; reflexivity).
    eexists. split; [ reflexivity | ]. split; [ reflexivity | ].
    set (win := firstn 30 (skipn (i - 29) (Order_Volume df))).
    assert (Hlen : length win = 30%nat) by (apply window_length; lia).
    assert (Hwin : Forall (fun x => - 50 <= x <= 599) win)
      by (apply Forall_window; exact Fov).
    assert (Hne : win <> []) by (intros Hnil; rewrite Hnil in Hlen; discriminate).
    pose proof (mean_bounds _ _ win Hne Hwin) as Hm. rewrite Hlen in Hm.
    replace (INR 30) with 30 in Hm by (rewrite INR_IZR_INZ; reflexivity).
    exact Hm.
Qed.

End GeneratedTable.

(** ** Instances on the default run from the constant state *)

Section GeneratedTableInstances.
Import Pricing Generator Dashboard.

Lemma X5_witness :
  (0 < 365)%Z
  /\ exists df s',
    @generate_fake_data (constant_state 0) clock 365 tt = Return (df, s')
    /\ forall i r, iloc df i = Some r ->
         0.4 <= steel_cost r < 1.1
         /\ 0.85 <= aluminum_cost r < 1.65
         /\ 0.25 <= fiberglass_cost r < 0.65
         /\ 0.08 <= electricity_cost r < 0.22
         /\ - 50 <= order_volume r <= 599.
Proof.
  split; [ lia | ].
  apply (@X5_metric_ranges (constant_state 0) clock 365 tt). lia.
Defined.

Lemma X6_witness :
  (0 < 365)%Z
  /\ exists df s' steel labor electricity,
    @generate_fake_data (constant_state 0) clock 365 tt = Return (df, s')
    /\ Series_mean (Steel_Cost df) = np_finite steel
    /\ Series_mean (Labor_Rate df) = np_finite labor
    /\ Series_mean (Electricity_Cost df) = np_finite electricity
    /\ 0.4 <= steel <= 1.1
    /\ 0.08 <= electricity <= 0.22.
Proof.
  split; [ lia | ].
  apply (@X6_headline_averages (constant_state 0) clock 365 tt). lia.
Defined.

Lemma X7_witness :
  0 < 0.1
  /\ ((0 < 365)%Z -> nth_error (seasonal 365 0.1) 0 = Some 0)
  /\ (forall i t, nth_error (seasonal 365 0.1) i = Some t ->
        ((1 <= i <= 182)%nat -> 0 < t)
        /\ ((183 <= i <= 364)%nat -> t < 0)).
Proof.
  split; [ lra | ]. apply (X7_seasonal_sign 365 0.1). lra.
Defined.

Lemma X8_witness :
  (0 < 365)%Z
  /\ exists df s' fs,
    @generate_fake_data (constant_state 0) clock 365 tt = Return (df, s')
    /\ Date_max (Date df) = Some clock
    /\ future_dates df = Return fs
    /\ length fs = 30%nat
    /\ (forall k, (k < 30)%nat ->
          nth_error fs k = Some (clock + timedelta_days (Z.of_nat k + 1))%Z)
    /\ (forall d f, In d (Date df) -> In f fs -> (d < f)%Z).
Proof.
  split; [ lia | ].
  apply (@X8_future_dates (constant_state 0) clock 365 tt). lia.
Defined.

Lemma X9_witness :
  (0 < 365)%Z
  /\ exists df s',
    @generate_fake_data (constant_state 0) clock 365 tt = Return (df, s')
    /\ length (moving_average df) = Z.to_nat 365
    /\ (forall i, (i < Z.to_nat 365)%nat -> (i < 29)%nat ->
          nth_error (moving_average df) i = Some np_nan)
    /\ (forall i, (29 <= i < Z.to_nat 365)%nat ->
          exists m,
            nth_error (moving_average df) i = Some (np_finite m)
            /\ m = Rsum (firstn 30 (skipn (i - 29) (Order_Volume df))) / 30
            /\ - 50 <= m <= 599).
Proof.
  split; [ lia | ].
  apply (@X9_moving_average (constant_state 0) clock 365 tt). lia.
Defined.

End GeneratedTableInstances.

(** ** The price surface *)

Section SurfaceFacts.
Import Pricing Generator Dashboard.

Lemma zip_with_maps {A B C D : Type} (f : B -> C -> D) (g : A -> B) (h : A -> C)
  (l : list A) :
  zip_with f (map g l) (map h l) = map (fun a => f (g a) (h a)) l.
Proof. induction l as [ | a l IH]; simpl; [ reflexivity | now rewrite IH ]. Qed.

(** The surface, row by row: one row per labor rate, one cell per
    material cost. *)
Lemma cost_surface_rows
  (steel_min steel_max labor_min labor_max overhead_cost margin : R) :
  cost_surface steel_min steel_max labor_min labor_max overhead_cost margin
  = map (fun labor =>
           map (fun material =>
                  calculate_price_numpy (material + labor + overhead_cost) margin 0)
               (np_linspace steel_min steel_max 100))
        (np_linspace labor_min labor_max 100).
Proof.
  unfold cost_surface, np_meshgrid, calculate_price_grid, grid_add_scalar, grid_add.
  rewrite zip_with_maps, !map_map. apply map_ext. intros labor.
  rewrite <- (map_id (np_linspace steel_min steel_max 100)) at 1.
  rewrite zip_with_maps, !map_map. reflexivity.
Qed.

Lemma nth_error_map_Some {A B : Type} (f : A -> B) (l : list A) (i : nat) (b : B) :
  nth_error (map f l) i = Some b ->
  exists a, nth_error l i = Some a /\ b = f a.
Proof.
  rewrite nth_error_map. destruct (nth_error l i) as [a | ]; [ | discriminate ].
  intros H. exists a. split; [ reflexivity | ].
  change (Some (f a) = Some b) in H. congruence.
Qed.

Lemma grid_cell_Some {A : Type} (G : list (list A)) (i j : nat) (a : A) :
  grid_cell G i j = Some a ->
  exists row, nth_error G i = Some row /\ nth_error row j = Some a.
Proof.
  unfold grid_cell. destruct (nth_error G i) as [row | ]; [ | discriminate ].
  intros H. now exists row.
Qed.

(** X10. The price surface of the cost-sensitivity view. For column
    extremes with min <= max and a margin within the slider's bounds, the
    surface is a 100 x 100 grid of finite prices (no division by zero);
    the cell at row [i], column [j] is the price of the [j]-th material
    cost plus the [i]-th labor rate plus the overhead cost; and prices do
    not decrease along either axis. *)
Theorem X10_cost_surface
  (steel_min steel_max labor_min labor_max overhead_cost margin : R) :
  steel_min <= steel_max -> labor_min <= labor_max -> 0.1 <= margin <= 0.5 ->
  length (cost_surface steel_min steel_max labor_min labor_max
                       overhead_cost margin) = 100%nat
  /\ (forall row,
        In row (cost_surface steel_min steel_max labor_min labor_max
                             overhead_cost margin) ->
        length row = 100%nat)
  /\ (forall i j, (i < 100)%nat -> (j < 100)%nat ->
        grid_cell (cost_surface steel_min steel_max labor_min labor_max
                                overhead_cost margin) i j
        = Some (np_finite
                  ((steel_min + INR j * ((steel_max - steel_min) / 99)
                    + (labor_min + INR i * ((labor_max - labor_min) / 99))
                    + overhead_cost) / (1 - margin))))
  /\ (forall i i' j j' z z',
        (i <= i')%nat -> (j <= j')%nat ->
        grid_cell (cost_surface steel_min steel_max labor_min labor_max
                                overhead_cost margin) i j
        = Some (np_finite z) ->
        grid_cell (cost_surface steel_min steel_max labor_min labor_max
                                overhead_cost margin) i' j'
        = Some (np_finite z') ->
        z <= z').
Proof.
  intros Hsteel Hlabor Hmargin.
  rewrite cost_surface_rows.
  assert (H99 : INR (100 - 1) = 99) by (rewrite INR_IZR_INZ; reflexivity).
  set (Z := map _ (np_linspace labor_min labor_max 100)).
  assert (Hcell : forall i j, (i < 100)%nat -> (j < 100)%nat ->
            grid_cell Z i j
            = Some (np_finite
                      ((steel_min + INR j * ((steel_max - steel_min) / 99)
                        + (labor_min + INR i * ((labor_max - labor_min) / 99))
                        + overhead_cost) / (1 - margin)))).
  { intros i j Hi Hj. unfold grid_cell, Z.
    rewrite nth_error_map, np_linspace_nth by lia. cbn [option_map].
    rewrite nth_error_map, np_linspace_nth by lia. cbn [option_map].
    rewrite calculate_price_numpy_value by lra. rewrite H99.
    do 2 apply f_equal. field. lra. }
  assert (Hin : forall i j a, grid_cell Z i j = Some a ->
                  (i < 100)%nat /\ (j < 100)%nat).
  { intros i j a Ha. apply grid_cell_Some in Ha.
    destruct Ha as (row & Hrow & Hj). split.
    - assert (Hlt : (i < length Z)%nat) by (apply nth_error_Some; congruence).
      unfold Z in Hlt. now rewrite length_map, np_linspace_length in Hlt.
    - unfold Z in Hrow.
      destruct (nth_error_map_Some _ _ _ _ Hrow) as (labor & _ & Erow).
      assert (Hlt : (j < length row)%nat) by (apply nth_error_Some; congruence).
      rewrite Erow in Hlt.
      now rewrite length_map, np_linspace_length in Hlt. }
  split; [ | split; [ | split ] ].
  - unfold Z. now rewrite length_map, np_linspace_length.
  - intros row Hrow. unfold Z in Hrow. apply in_map_iff in Hrow.
    destruct Hrow as (labor & <- & _).
    now rewrite length_map, np_linspace_length.
  - exact Hcell.
  - intros i i' j j' z z' Hii Hjj Hz Hz'.
    destruct (Hin _ _ _ Hz') as [Hi' Hj'].
    rewrite Hcell in Hz, Hz' by lia.
    injection Hz as <-. injection Hz' as <-.
    assert (Hi1 : INR i <= INR i') by (apply le_INR; exact Hii).
    assert (Hj1 : INR j <= INR j') by (apply le_INR; exact Hjj).
    assert (Hinv : 0 < / (1 - margin)) by (apply Rinv_0_lt_compat; lra).
    unfold Rdiv. apply Rmult_le_compat_r; [ lra | ].
    assert (0 <= (steel_max - steel_min) * / 99) by nra.
    assert (0 <= (labor_max - labor_min) * / 99) by nra.
    nra.
Qed.

Lemma X10_witness :
  0.4 <= 1.1 /\ 20 <= 30 /\ 0.1 <= 0.3 <= 0.5
  /\ length (cost_surface 0.4 1.1 20 30 10 0.3) = 100%nat
  /\ grid_cell (cost_surface 0.4 1.1 20 30 10 0.3) 0 0
     = Some (np_finite
               ((0.4 + INR 0 * ((1.1 - 0.4) / 99)
                 + (20 + INR 0 * ((30 - 20) / 99)) + 10) / (1 - 0.3))).
Proof.
  destruct (X10_cost_surface 0.4 1.1 20 30 10 0.3
              ltac:(lra) ltac:(lra) ltac:(lra)) as (Hlen & _ & Hcell & _).
  split; [ lra | ]. split; [ lra | ]. split; [ lra | ].
  split; [ exact Hlen | apply Hcell; lia ].
Defined.

End SurfaceFacts.
